(** * The validation pipeline of the code-scanner language server

    A shallow embedding of [server/src/server.ts] and of
    [server/src/scannerServer.ts]: the two registries (collectors and cached
    settings), the handlers the server registers on its connection, and
    the two copies of the validation run ([validateTextDocument] and
    [ScannerServer.validate]).

    Module-level mutable state becomes a record threaded through a small
    state monad; calls on the connection and on the analysis engine are
    recorded, in order, as a list of events; a JavaScript exception is a
    completion of its own, so that [try]/[catch] can be written as in the
    source.

    The server runs on one thread and is read twice.

    Module [server] reads a run of [validateTextDocument] from its call
    to its end: what comes from outside has the shape the source gives it
    by its type annotations and casts (the client's answer to a
    configuration request is an [ISettings] object, the parameter of a
    configuration change carries a settings object), and the only
    [await], on the settings, resumes at once.  What a run does once it
    has its settings is stated on this reading.

    Module [async] keeps the suspension point: a call of
    [validateTextDocument] stops at the [await], the run resumes as a
    task of its own when the settings are settled, with a settings
    object, with [null] or with the error of a failed request, and it
    reads the document object as it is then; the settings of a
    configuration change may be [null].  What depends on when a run
    resumes, or on settings that are missing, is stated on this
    reading. *)

From Stdlib Require Import ZArith String List Bool.
From stdpp Require Import base option list strings gmap fin_maps.

Local Open Scope string_scope.
Local Open Scope list_scope.
Local Open Scope Z_scope.

(** ** Protocol data (vscode-languageserver) *)

Record Position := { line : Z; character : Z }.

Record Range := { start : Position; end_ : Position }.

Record Location := { loc_uri : string; loc_range : Range }.

Record DiagnosticRelatedInformation :=
  { location : Location; ri_message : string }.

(** ** Data of the analysis engine (package flawed-code-scanner) *)

(** Modelled from the spec: the enum [ErrorLevel] is declared in the package
    flawed-code-scanner, which is not part of the sources; its members are
    the four levels of the data model, and [ErrorLevel_name] is the reverse
    mapping [ErrorLevel[level]] of a TypeScript numeric enum, the member's
    name. *)
Inductive ErrorLevel := Error | Warning | Information | Hint.

(** Modelled from the spec: the names of the members of [ErrorLevel], which
    the message of a diagnostic starts with. *)
Definition ErrorLevel_name (level : ErrorLevel) : string :=
  match level with
  | Error => "Error"
  | Warning => "Warning"
  | Information => "Information"
  | Hint => "Hint"
  end.

(** A finding stored in a collector.  [extraMsg] is optional. *)
Record CodeError := {
  range : Z * Z;
  errorLevel : ErrorLevel;
  pluginTips : string;
  extraMsg : option string
}.

(** [getCodeErrors()] returns a [Map] keyed by the findings (the callback of
    [forEach] receives the finding as the key); a JavaScript [Map] is
    iterated in insertion order and its keys are compared by identity, so
    the content of a collector is a list. *)
Definition ErrorCollector := list CodeError.

Inductive JsValue :=
  | JsNumber (n : Z)
  | JsString (s : string)
  | JsBool (b : bool).

Record ScanPluginsConf := {
  plugin : string;
  options : option (list (string * JsValue))
}.

Record Diagnostic := {
  severity : ErrorLevel;
  d_range : Range;
  message : string;
  source : string;
  relatedInformation : option (list DiagnosticRelatedInformation)
}.

Record TextDocument := {
  uri : string;
  languageId : string;
  version : Z;
  getText : string
}.

(** A collector is an object shared between the registry and the plugins it
    is attached to; the registry holds one per URI and nothing ever removes
    or replaces an entry, so a reference to a collector is the URI it is
    registered under. *)
Definition CollectorRef := string.

(** The result of [Scanner.genScanPluginsConf(conf, collector)]: the plugin
    configuration with the collector attached to every plugin. *)
Record AttachedPlugins := {
  pluginsConf : list ScanPluginsConf;
  attached : CollectorRef
}.

(** The argument of [scanner.setConfig]. *)
Record ScannerConfig := {
  scanPluginsConf_ : AttachedPlugins;
  code : string;
  filePath : string;
  babelParsePlugins : list string
}.

(** The example settings. [scanPluginsConf] may be missing at run time: the
    source guards every read of it with [??]. *)
Record ISettings := {
  maxNumberOfProblems : Z;
  scanPluginsConf : option (list ScanPluginsConf)
}.

#[global] Instance ErrorLevel_eq_dec : EqDecision ErrorLevel.
Proof. solve_decision. Defined.
#[global] Instance Position_eq_dec : EqDecision Position.
Proof. solve_decision. Defined.
#[global] Instance Range_eq_dec : EqDecision Range.
Proof. solve_decision. Defined.
#[global] Instance Location_eq_dec : EqDecision Location.
Proof. solve_decision. Defined.
#[global] Instance DiagnosticRelatedInformation_eq_dec :
  EqDecision DiagnosticRelatedInformation.
Proof. solve_decision. Defined.
#[global] Instance Diagnostic_eq_dec : EqDecision Diagnostic.
Proof. solve_decision. Defined.
#[global] Instance JsValue_eq_dec : EqDecision JsValue.
Proof. solve_decision. Defined.
#[global] Instance ScanPluginsConf_eq_dec : EqDecision ScanPluginsConf.
Proof. solve_decision. Defined.

(** The parameter of a [workspace/didChangeConfiguration] notification.
    The handler reads [change.settings.languageServerExample] without a
    guard, so [settings] is an object; the section in it may be missing. *)
Record SettingsPayload := { languageServerExample : option ISettings }.

Record DidChangeConfigurationParams := { settings : SettingsPayload }.

(** The capabilities a client announces in [initialize], as far as
    [onInitialize] reads them; every level may be missing. *)
Record WorkspaceClientCapabilities := {
  configuration : option bool;
  workspaceFolders : option bool
}.

Record PublishDiagnosticsClientCapabilities := {
  cap_relatedInformation : option bool
}.

Record TextDocumentClientCapabilities := {
  publishDiagnostics : option PublishDiagnosticsClientCapabilities
}.

Record ClientCapabilities := {
  workspace : option WorkspaceClientCapabilities;
  textDocument : option TextDocumentClientCapabilities
}.

Record InitializeParams := { capabilities : ClientCapabilities }.

(** ** Exceptions, events and the monad *)

Inductive Exception :=
  | TypeError (what : string)
  | ScannerFailure (what : string).

(** What is written to the console. *)
Inductive LogMessage :=
  | LogText (s : string)
  | LogPathOf (uri : string)       (* JSON.stringify(path.parse(url.parse(uri).pathname ?? '')) *)
  | LogVersion (v : Z)             (* '' + textDocument.version *)
  | LogChange (change : DidChangeConfigurationParams). (* JSON.stringify(change) *)

(** Calls that leave the server, in the order they are made. *)
Inductive Event :=
  | console_log (m : LogMessage)
  | console_error (m : string)
  | workspace_getConfiguration (scopeUri section : string)
  | scanner_run_call (cfg : ScannerConfig) (found_in_collector : ErrorCollector)
  | sendDiagnostics (uri : string) (diagnostics : list Diagnostic)
  | sendRequest (method text : string)
  | sendNotification (method text : string).

Inductive Completion (A : Type) :=
  | Normal (a : A)
  | Throw (e : Exception).
Arguments Normal {A} a.
Arguments Throw {A} e.

Record Outcome (St A : Type) := {
  completion : Completion A;
  final : St;
  events : list Event
}.
Arguments completion {St A} o.
Arguments final {St A} o.
Arguments events {St A} o.

Definition M (St A : Type) := St -> Outcome St A.

(** An outcome with earlier events put in front. *)
Definition after {St A} (evs : list Event) (o : Outcome St A) : Outcome St A :=
  match o with
  | {| completion := c; final := s; events := evs' |} =>
      {| completion := c; final := s; events := evs ++ evs' |}
  end.

Section Monad.
Context {St : Type}.

Definition ret {A} (a : A) : M St A :=
  fun s => {| completion := Normal a; final := s; events := [] |}.

Definition bind {A B} (m : M St A) (k : A -> M St B) : M St B :=
  fun s =>
    match m s with
    | {| completion := Normal a; final := s'; events := evs |} =>
        after evs (k a s')
    | {| completion := Throw e; final := s'; events := evs |} =>
        {| completion := Throw e; final := s'; events := evs |}
    end.

Definition get : M St St :=
  fun s => {| completion := Normal s; final := s; events := [] |}.

Definition modify (f : St -> St) : M St unit :=
  fun s => {| completion := Normal tt; final := f s; events := [] |}.

Definition emit (e : Event) : M St unit :=
  fun s => {| completion := Normal tt; final := s; events := [e] |}.

Definition throw {A} (e : Exception) : M St A :=
  fun s => {| completion := Throw e; final := s; events := [] |}.

(** [try { body } catch (e) { handler }]: the effects of the body up to
    the throw stay. *)
Definition try_catch (body : M St unit) (handler : Exception -> M St unit)
  : M St unit :=
  fun s =>
    match body s with
    | {| completion := Normal a; final := s'; events := evs |} =>
        {| completion := Normal a; final := s'; events := evs |}
    | {| completion := Throw e; final := s'; events := evs |} =>
        after evs (handler e s')
    end.

(** A call of an [async] function whose promise nobody awaits: a rejection
    does not reach the caller. *)
Definition floating (m : M St unit) : M St unit :=
  try_catch m (fun _ => ret tt).

(** [xs.forEach(f)] for an [f] with effects. *)
Fixpoint forEach {A} (xs : list A) (f : A -> M St unit) : M St unit :=
  match xs with
  | [] => ret tt
  | x :: xs' => bind (f x) (fun _ => forEach xs' f)
  end.
End Monad.

Declare Scope js_scope.
Delimit Scope js_scope with js.
Notation "'let*' x := m 'in' k" := (bind m (fun x => k))
  (at level 10, x name, m at level 100, k at level 200) : js_scope.
Notation "m ;; k" := (bind m (fun _ => k))
  (at level 100, k at level 200, right associativity) : js_scope.
Local Open Scope js_scope.

(** ** JavaScript operators used by the source *)

(** [xs.includes(x)] on an array of strings. *)
Definition includes (xs : list string) (x : string) : bool :=
  existsb (String.eqb x) xs.

(** [a ?? b]: [b] only when [a] is [null] or [undefined]. *)
Definition nullish {A} (a : option A) (b : A) : A :=
  match a with
  | Some v => v
  | None => b
  end.
Infix "??" := nullish (at level 45, left associativity) : js_scope.

(** Truthiness of an optional string: a missing one and the empty one are
    falsy. *)
Definition truthy (s : option string) : bool :=
  match s with
  | Some EmptyString => false
  | Some (String _ _) => true
  | None => false
  end.

(** Truthiness of an optional flag, as in [!!capabilities.x]. *)
Definition truthy_flag (b : option bool) : bool :=
  match b with
  | Some true => true
  | _ => false
  end.

(** [diagnostics.push(d)]. *)
Definition push {A} (xs : list A) (x : A) : list A := xs ++ [x].

(** [errors.forEach((type, error) => body)] where the body only pushes onto
    an array declared outside. *)
Definition Map_forEach {A B} (entries : list A) (body : list B -> A -> list B)
    (acc : list B) : list B :=
  fold_left body entries acc.

(** ** The external collaborators *)

(** The connection created by [createConnection]. *)
Inductive Connection := connection.

(** The state of a [Scanner] instance that the server can see: the
    configuration installed by the last [setConfig]. *)
Record Scanner := { config : option ScannerConfig }.

Definition new_Scanner : Scanner := {| config := None |}.

(** What the server does not contain.
    - [positionAt] is [TextDocument.positionAt];
    - [scanner_run cfg found] is [Scanner.run()] under the configuration
      [cfg] when the attached collector holds [found]: it gives the content
      of the collector when the run ends and the exception it ends with,
      if any.  The engine is taken as a function of what [setConfig]
      installed and of the collector it writes to;
    - [getConfiguration scopeUri section] is the client's answer to a
      [workspace/configuration] request; the answer is taken to arrive, and
      the [await] on it to resume at once. *)
Class Externals := {
  positionAt : TextDocument -> Z -> Position;
  scanner_run : ScannerConfig -> ErrorCollector -> ErrorCollector * option Exception;
  getConfiguration : string -> string -> ISettings
}.

(** [Scanner.genScanPluginsConf(conf, collector)]. *)
Definition genScanPluginsConf (conf : list ScanPluginsConf)
    (collector : CollectorRef) : AttachedPlugins :=
  {| pluginsConf := conf; attached := collector |}.

(** Access to the objects that live in a module's state: the registry of
    collectors and the scanner instance. *)
Class Heap (St : Type) := {
  collectors : St -> gmap string ErrorCollector;
  with_collectors : gmap string ErrorCollector -> St -> St;
  the_scanner : St -> Scanner;
  with_scanner : Scanner -> St -> St
}.

Section Objects.
Context `{ext : Externals} {St : Type} `{heap : Heap St}.

(** [collector.clearAll()]. *)
Definition ErrorCollector_clearAll (collector : CollectorRef) : M St unit :=
  modify (fun s => with_collectors (<[collector := []]> (collectors s)) s).

(** [collector.getCodeErrors()]. *)
Definition ErrorCollector_getCodeErrors (collector : CollectorRef)
  : M St ErrorCollector :=
  let* s := get in
  ret (default [] (collectors s !! collector)).

(** [scanner.setConfig(cfg)]. *)
Definition Scanner_setConfig (cfg : ScannerConfig) : M St unit :=
  modify (with_scanner {| config := Some cfg |}).

(** [scanner.run()]: the plugins write to the collector they are attached
    to; what they wrote before a failure stays in it.  Both call sites
    install a configuration first; nothing is modelled for a run
    without one. *)
Definition Scanner_run : M St unit :=
  let* s := get in
  match config (the_scanner s) with
  | None => ret tt
  | Some cfg =>
      let collector := attached (scanPluginsConf_ cfg) in
      let found := default [] (collectors s !! collector) in
      let result := scanner_run cfg found in
      emit (scanner_run_call cfg found) ;;
      modify (fun s => with_collectors (<[collector := fst result]> (collectors s)) s) ;;
      match snd result with
      | Some e => throw e
      | None => ret tt
      end
  end.
End Objects.

(** ** scannerServer.ts *)

Module scannerServer.

Record ScannerDefaults := { scanPlugins : list ScanPluginsConf }.

(** The instance fields of the class. *)
Record ScannerServer := {
  _connection : option Connection;
  _scanner : Scanner;
  _allowRelatedInformation : bool
}.

(** The module's registry of collectors, and the instance [this]. *)
Record State := {
  collectorMap : gmap string ErrorCollector;
  this : ScannerServer
}.

#[export] Instance State_heap : Heap State := {
  collectors := collectorMap;
  with_collectors m s := {| collectorMap := m; this := this s |};
  the_scanner s := _scanner (this s);
  with_scanner sc s :=
    {| collectorMap := collectorMap s;
       this := {| _connection := _connection (this s);
                  _scanner := sc;
                  _allowRelatedInformation := _allowRelatedInformation (this s) |} |}
}.

Definition getCollectorByUrl (uri : string) : M State CollectorRef :=
  let* s := get in
  if bool_decide (is_Some (collectorMap s !! uri)) then
    ret uri
  else
    modify (fun s => {| collectorMap := <[uri := []]> (collectorMap s);
                        this := this s |}) ;;
    ret uri.

Definition allLanguageIds : list string :=
  ["javascript"; "typescript"; "javascriptreact"; "typescriptreact"].

Definition getPluginByLanguageId (languageId : string) : list string :=
  if String.eqb languageId "javascript" then []
  else if String.eqb languageId "typescript" then ["typescript"]
  else if String.eqb languageId "javascriptreact" then ["jsx"]
  else if String.eqb languageId "typescriptreact" then ["jsx"; "typescript"]
  else [].

Definition defaultScannerConfig : ScannerDefaults :=
  {| scanPlugins :=
       [ {| plugin := "needTryCatch";
            options := Some [("level", JsNumber 2)] |};
         {| plugin := "needHandlerInCatch"; options := None |};
         {| plugin := "dangerousAndOperator"; options := None |};
         {| plugin := "dangerousInitState"; options := None |};
         {| plugin := "dangerousDefaultValue"; options := None |} ] |}.

(** [new ScannerServer(allowRelatedInformation)]: the field initialisers
    run, then the body, which only creates the scanner. *)
Definition constructor (allowRelatedInformation : option bool) : ScannerServer :=
  {| _connection := None;
     _scanner := new_Scanner;
     _allowRelatedInformation := true |}.

Definition bindConnection (connection : Connection) : M State unit :=
  modify (fun s =>
    {| collectorMap := collectorMap s;
       this := {| _connection := Some connection;
                  _scanner := _scanner (this s);
                  _allowRelatedInformation := _allowRelatedInformation (this s) |} |}).

(** A call [this._connection.f(...)]: a [TypeError] while the field is
    still [null]. *)
Definition on_connection (e : Event) : M State unit :=
  let* s := get in
  match _connection (this s) with
  | Some _ => emit e
  | None => throw (TypeError "Cannot read properties of null")
  end.

Section Validate.
Context `{ext : Externals}.

(** The body of the loop over the findings. *)
Definition diagnosticOf (this_ : ScannerServer) (textDocument : TextDocument)
    (diagnostics : list Diagnostic) (error : CodeError) : list Diagnostic :=
  let diagnostic :=
    {| severity := errorLevel error;
       d_range := {| start := positionAt textDocument (fst (range error));
                     end_ := positionAt textDocument (snd (range error)) |};
       message := ErrorLevel_name (errorLevel error) +:+ ": " +:+ pluginTips error;
       source := "code-scanner";
       relatedInformation := None |} in
  let diagnostic :=
    if _allowRelatedInformation this_ && truthy (extraMsg error) then
      {| severity := severity diagnostic;
         d_range := d_range diagnostic;
         message := message diagnostic;
         source := source diagnostic;
         relatedInformation :=
           Some [ {| location := {| loc_uri := uri textDocument;
                                    loc_range := d_range diagnostic |};
                     ri_message := default "" (extraMsg error) |} ] |}
    else diagnostic in
  push diagnostics diagnostic.

Definition validate (textDocument : TextDocument) (settings : ISettings)
  : M State unit :=
  if negb (includes allLanguageIds (languageId textDocument)) then
    ret tt
  else
    let* collector := getCollectorByUrl (uri textDocument) in
    ErrorCollector_clearAll collector ;;
    let scannerPlugins :=
      genScanPluginsConf
        (scanPluginsConf settings ?? scanPlugins defaultScannerConfig)
        collector in
    on_connection (console_log (LogText (uri textDocument))) ;;
    on_connection (console_log (LogPathOf (uri textDocument))) ;;
    on_connection (console_log (LogVersion (version textDocument))) ;;
    Scanner_setConfig
      {| scanPluginsConf_ := scannerPlugins;
         code := getText textDocument;
         filePath := uri textDocument;
         babelParsePlugins := getPluginByLanguageId (languageId textDocument) |} ;;
    try_catch Scanner_run
      (fun e => on_connection (console_error "code parse error!")) ;;
    let* errors := ErrorCollector_getCodeErrors collector in
    let* s := get in
    let diagnostics :=
      Map_forEach errors (diagnosticOf (this s) textDocument) [] in
    on_connection (sendDiagnostics (uri textDocument) diagnostics) ;;
    on_connection (sendRequest "request" "send request") ;;
    on_connection (sendNotification "notification" "send notification").
End Validate.

End scannerServer.

(** ** server.ts *)

Module server.
Import scannerServer (scanPlugins, defaultScannerConfig).

(** The module-level variables, and [documents], the store of open
    documents kept by the [TextDocuments] manager. *)
Record State := {
  documents : list TextDocument;
  scanner : Scanner;
  collectorMap : gmap string ErrorCollector;
  hasConfigurationCapability : bool;
  hasWorkspaceFolderCapability : bool;
  hasDiagnosticRelatedInformationCapability : bool;
  globalSettings : ISettings;
  documentSettings : gmap string ISettings
}.

Definition set_collectorMap (m : gmap string ErrorCollector) (s : State) : State :=
  {| documents := documents s; scanner := scanner s; collectorMap := m;
     hasConfigurationCapability := hasConfigurationCapability s;
     hasWorkspaceFolderCapability := hasWorkspaceFolderCapability s;
     hasDiagnosticRelatedInformationCapability :=
       hasDiagnosticRelatedInformationCapability s;
     globalSettings := globalSettings s;
     documentSettings := documentSettings s |}.

Definition set_scanner (sc : Scanner) (s : State) : State :=
  {| documents := documents s; scanner := sc; collectorMap := collectorMap s;
     hasConfigurationCapability := hasConfigurationCapability s;
     hasWorkspaceFolderCapability := hasWorkspaceFolderCapability s;
     hasDiagnosticRelatedInformationCapability :=
       hasDiagnosticRelatedInformationCapability s;
     globalSettings := globalSettings s;
     documentSettings := documentSettings s |}.

Definition set_globalSettings (g : ISettings) (s : State) : State :=
  {| documents := documents s; scanner := scanner s;
     collectorMap := collectorMap s;
     hasConfigurationCapability := hasConfigurationCapability s;
     hasWorkspaceFolderCapability := hasWorkspaceFolderCapability s;
     hasDiagnosticRelatedInformationCapability :=
       hasDiagnosticRelatedInformationCapability s;
     globalSettings := g;
     documentSettings := documentSettings s |}.

Definition set_documentSettings (m : gmap string ISettings) (s : State) : State :=
  {| documents := documents s; scanner := scanner s;
     collectorMap := collectorMap s;
     hasConfigurationCapability := hasConfigurationCapability s;
     hasWorkspaceFolderCapability := hasWorkspaceFolderCapability s;
     hasDiagnosticRelatedInformationCapability :=
       hasDiagnosticRelatedInformationCapability s;
     globalSettings := globalSettings s;
     documentSettings := m |}.

Definition set_capabilities (conf folders related : bool) (s : State) : State :=
  {| documents := documents s; scanner := scanner s;
     collectorMap := collectorMap s;
     hasConfigurationCapability := conf;
     hasWorkspaceFolderCapability := folders;
     hasDiagnosticRelatedInformationCapability := related;
     globalSettings := globalSettings s;
     documentSettings := documentSettings s |}.

#[export] Instance State_heap : Heap State := {
  collectors := collectorMap;
  with_collectors := set_collectorMap;
  the_scanner := scanner;
  with_scanner := set_scanner
}.

Definition getCollectorByUrl (uri : string) : M State CollectorRef :=
  let* s := get in
  if bool_decide (is_Some (collectorMap s !! uri)) then
    ret uri
  else
    modify (fun s => set_collectorMap (<[uri := []]> (collectorMap s)) s) ;;
    ret uri.

(** [connection.onInitialize]: the three flags are read off the client's
    capabilities.  (The result returned to the client is not modelled.) *)
Definition onInitialize (params : InitializeParams) : M State unit :=
  let capabilities := capabilities params in
  modify (set_capabilities
    (match workspace capabilities with
     | Some w => truthy_flag (configuration w)
     | None => false
     end)
    (match workspace capabilities with
     | Some w => truthy_flag (workspaceFolders w)
     | None => false
     end)
    (match textDocument capabilities with
     | Some t =>
         match publishDiagnostics t with
         | Some p => truthy_flag (cap_relatedInformation p)
         | None => false
         end
     | None => false
     end)).

Definition defaultSettings : ISettings :=
  {| maxNumberOfProblems := 1000;
     scanPluginsConf := Some (scanPlugins defaultScannerConfig) |}.

(** The state once the module is loaded. *)
Definition initial : State :=
  {| documents := [];
     scanner := new_Scanner;
     collectorMap := ∅;
     hasConfigurationCapability := false;
     hasWorkspaceFolderCapability := false;
     hasDiagnosticRelatedInformationCapability := false;
     globalSettings := defaultSettings;
     documentSettings := ∅ |}.

Definition allLanguageIds : list string :=
  ["javascript"; "typescript"; "javascriptreact"; "typescriptreact"].

Definition getPluginByLanguageId (languageId : string) : list string :=
  if String.eqb languageId "javascript" then []
  else if String.eqb languageId "typescript" then ["typescript"]
  else if String.eqb languageId "javascriptreact" then ["jsx"]
  else if String.eqb languageId "typescriptreact" then ["jsx"; "typescript"]
  else [].

(** [documents.onDidClose]. *)
Definition onDidClose (e_document : TextDocument) : M State unit :=
  modify (fun s => set_documentSettings (delete (uri e_document) (documentSettings s)) s).

Section Handlers.
Context `{ext : Externals}.

Definition getDocumentSettings (resource : string) : M State ISettings :=
  let* s := get in
  if negb (hasConfigurationCapability s) then
    ret (globalSettings s)
  else
    match documentSettings s !! resource with
    | Some result => ret result
    | None =>
        emit (workspace_getConfiguration resource "languageServerExample") ;;
        let result := getConfiguration resource "languageServerExample" in
        modify (fun s => set_documentSettings (<[resource := result]> (documentSettings s)) s) ;;
        ret result
    end.

(** The body of the loop over the findings. *)
Definition diagnosticOf (hasDiagnosticRelatedInformationCapability : bool)
    (textDocument : TextDocument)
    (diagnostics : list Diagnostic) (error : CodeError) : list Diagnostic :=
  let diagnostic :=
    {| severity := errorLevel error;
       d_range := {| start := positionAt textDocument (fst (range error));
                     end_ := positionAt textDocument (snd (range error)) |};
       message := ErrorLevel_name (errorLevel error) +:+ ": " +:+ pluginTips error;
       source := "code-scanner";
       relatedInformation := None |} in
  let diagnostic :=
    if hasDiagnosticRelatedInformationCapability && truthy (extraMsg error) then
      {| severity := severity diagnostic;
         d_range := d_range diagnostic;
         message := message diagnostic;
         source := source diagnostic;
         relatedInformation :=
           Some [ {| location := {| loc_uri := uri textDocument;
                                    loc_range := d_range diagnostic |};
                     ri_message := default "" (extraMsg error) |} ] |}
    else diagnostic in
  push diagnostics diagnostic.

Definition validateTextDocument (textDocument : TextDocument) : M State unit :=
  if negb (includes allLanguageIds (languageId textDocument)) then
    ret tt
  else
    let* settings := getDocumentSettings (uri textDocument) in
    let* collector := getCollectorByUrl (uri textDocument) in
    ErrorCollector_clearAll collector ;;
    let scannerPlugins :=
      genScanPluginsConf
        (scanPluginsConf settings ?? scanPlugins defaultScannerConfig)
        collector in
    emit (console_log (LogText (uri textDocument))) ;;
    emit (console_log (LogPathOf (uri textDocument))) ;;
    emit (console_log (LogVersion (version textDocument))) ;;
    Scanner_setConfig
      {| scanPluginsConf_ := scannerPlugins;
         code := getText textDocument;
         filePath := uri textDocument;
         babelParsePlugins := getPluginByLanguageId (languageId textDocument) |} ;;
    try_catch Scanner_run
      (fun e => emit (console_error "code parse error!")) ;;
    let* errors := ErrorCollector_getCodeErrors collector in
    let* s := get in
    let diagnostics :=
      Map_forEach errors
        (diagnosticOf (hasDiagnosticRelatedInformationCapability s) textDocument)
        [] in
    emit (sendDiagnostics (uri textDocument) diagnostics) ;;
    emit (sendRequest "request" "send request") ;;
    emit (sendNotification "notification" "send notification").

(** [connection.onDidChangeConfiguration]. *)
Definition onDidChangeConfiguration (change : DidChangeConfigurationParams)
  : M State unit :=
  emit (console_log (LogChange change)) ;;
  let* s := get in
  (if hasConfigurationCapability s then
     modify (set_documentSettings ∅)
   else
     modify (set_globalSettings
               (match languageServerExample (settings change) with
                | Some given => given
                | None => defaultSettings
                end))) ;;
  modify (fun s => set_collectorMap ((fun _ => []) <$> collectorMap s) s) ;;
  let* s := get in
  forEach (documents s)
    (fun textDocument => floating (validateTextDocument textDocument)).

(** [documents.onDidChangeContent]. *)
Definition onDidChangeContent (change_document : TextDocument) : M State unit :=
  floating (validateTextDocument change_document).
End Handlers.

End server.

(** ** What a run lets the outside see *)

(** The [publishDiagnostics] notifications among the events. *)
Definition published (evs : list Event) : list (string * list Diagnostic) :=
  omap (fun e => match e with
                 | sendDiagnostics u ds => Some (u, ds)
                 | _ => None
                 end) evs.

(** The runs of the analysis engine among the events, each with the content
    of the collector it started from. *)
Definition engine_calls (evs : list Event) : list (ScannerConfig * ErrorCollector) :=
  omap (fun e => match e with
                 | scanner_run_call cfg found => Some (cfg, found)
                 | _ => None
                 end) evs.

(** The configuration requests sent to the client. *)
Definition configuration_requests (evs : list Event) : list string :=
  omap (fun e => match e with
                 | workspace_getConfiguration u _ => Some u
                 | _ => None
                 end) evs.

(** ** What the properties are stated with *)

Section Reading.
Context `{ext : Externals}.

(** The settings a run reads. *)
Definition settingsFor (s : server.State) (resource : string) : ISettings :=
  if server.hasConfigurationCapability s then
    match server.documentSettings s !! resource with
    | Some cached => cached
    | None => getConfiguration resource "languageServerExample"
    end
  else server.globalSettings s.

(** The cache once the settings are read. *)
Definition cacheAfter (s : server.State) (resource : string) : gmap string ISettings :=
  if server.hasConfigurationCapability s then
    match server.documentSettings s !! resource with
    | Some _ => server.documentSettings s
    | None => <[resource := getConfiguration resource "languageServerExample"]>
                (server.documentSettings s)
    end
  else server.documentSettings s.

(** The request a run sends to read them. *)
Definition fetch (s : server.State) (resource : string) : list Event :=
  if server.hasConfigurationCapability s then
    match server.documentSettings s !! resource with
    | Some _ => []
    | None => [workspace_getConfiguration resource "languageServerExample"]
    end
  else [].

(** The configuration handed to the engine. *)
Definition engineConfig (doc : TextDocument) (settings : ISettings) : ScannerConfig :=
  {| scanPluginsConf_ :=
       {| pluginsConf :=
            scanPluginsConf settings
            ?? scannerServer.scanPlugins scannerServer.defaultScannerConfig;
          attached := uri doc |};
     code := getText doc;
     filePath := uri doc;
     babelParsePlugins := server.getPluginByLanguageId (languageId doc) |}.

(** What the [catch] block logs. *)
Definition caught (failure : option Exception) : list Event :=
  match failure with
  | Some _ => [console_error "code parse error!"]
  | None => []
  end.

(** The configuration [ScannerServer.validate] hands to the engine. *)
Definition instanceConfig (doc : TextDocument) (settings : ISettings) : ScannerConfig :=
  {| scanPluginsConf_ :=
       {| pluginsConf :=
            scanPluginsConf settings
            ?? scannerServer.scanPlugins scannerServer.defaultScannerConfig;
          attached := uri doc |};
     code := getText doc;
     filePath := uri doc;
     babelParsePlugins := scannerServer.getPluginByLanguageId (languageId doc) |}.

(** The one diagnostic the loop body pushes for a finding. *)
Definition diagnosticFor (allow : bool) (doc : TextDocument) (error : CodeError)
  : Diagnostic :=
  let r := {| start := positionAt doc (fst (range error));
              end_ := positionAt doc (snd (range error)) |} in
  {| severity := errorLevel error;
     d_range := r;
     message := ErrorLevel_name (errorLevel error) +:+ ": " +:+ pluginTips error;
     source := "code-scanner";
     relatedInformation :=
       if allow && truthy (extraMsg error) then
         Some [ {| location := {| loc_uri := uri doc; loc_range := r |};
                   ri_message := default "" (extraMsg error) |} ]
       else None |}.

(** The documents a run does not skip. *)
Definition supported (d : TextDocument) : bool :=
  includes server.allLanguageIds (languageId d).

(** The runs started by a change of configuration. *)
Definition revalidate (docs : list TextDocument) : M server.State unit :=
  forEach docs (fun textDocument => floating (server.validateTextDocument textDocument)).

(** Every cached entry was fetched during the events [seen]. *)
Definition fresh_cache (s : server.State) (seen : list Event) : Prop :=
  forall u cached,
    server.documentSettings s !! u = Some cached ->
    cached = getConfiguration u "languageServerExample"
    /\ u ∈ configuration_requests seen.
End Reading.

(** C3, as the spec words it: the list of the settings when it is present
    and not empty, the five defaults otherwise. *)
Definition spec_pluginConfiguration (settings : ISettings) : list ScanPluginsConf :=
  match scanPluginsConf settings with
  | Some (p :: conf) => p :: conf
  | _ =>
      [ {| plugin := "needTryCatch"; options := Some [("level", JsNumber 2)] |};
        {| plugin := "needHandlerInCatch"; options := None |};
        {| plugin := "dangerousAndOperator"; options := None |};
        {| plugin := "dangerousInitState"; options := None |};
        {| plugin := "dangerousDefaultValue"; options := None |} ]
  end.

(** The states an instance built by [new ScannerServer(arg)] goes through
    once it is bound to the connection: the registry of the module may hold
    anything when the instance is bound, and every call of [validate]
    leads to a further state. *)
Inductive instance_state `{ext : Externals} (arg : option bool)
  : scannerServer.State -> Prop :=
  | instance_bound (cm : gmap string ErrorCollector) :
      instance_state arg
        (final (scannerServer.bindConnection connection
                  {| scannerServer.collectorMap := cm;
                     scannerServer.this := scannerServer.constructor arg |}))
  | instance_validated (doc : TextDocument) (settings : ISettings)
      (st : scannerServer.State) :
      instance_state arg st ->
      instance_state arg (final (scannerServer.validate doc settings st)).

(** A concrete engine, client and document model to run the server on:
    every configured plugin reports one warning over the whole text (the
    first default plugin with a hint to show, the second with an empty
    one), the text ["("] lets the run fail after the first plugin, and the
    client knows no plugin list. *)
Module demo.
Definition finding (code : string) (p : ScanPluginsConf) : CodeError :=
  {| range := (0, Z.of_nat (String.length code));
     errorLevel := Warning;
     pluginTips := plugin p;
     extraMsg := if String.eqb (plugin p) "needTryCatch" then Some "wrap the call"
                 else if String.eqb (plugin p) "needHandlerInCatch" then Some ""
                 else None |}.

Definition run (cfg : ScannerConfig) (found : ErrorCollector)
  : ErrorCollector * option Exception :=
  let conf := pluginsConf (scanPluginsConf_ cfg) in
  if String.eqb (code cfg) "(" then
    (found ++ map (finding (code cfg)) (take 1 conf),
     Some (ScannerFailure "Unexpected token"))
  else
    (found ++ map (finding (code cfg)) conf, None).

#[export] Instance externals : Externals := {
  positionAt _ offset := {| line := 0; character := offset |};
  scanner_run := run;
  getConfiguration _ _ := {| maxNumberOfProblems := 100; scanPluginsConf := None |}
}.

Definition doc (text : string) : TextDocument :=
  {| uri := "file:///foo.ts"; languageId := "typescript";
     version := 1; getText := text |}.

Definition readme : TextDocument :=
  {| uri := "file:///README.md"; languageId := "markdown";
     version := 1; getText := "# hello" |}.
End demo.

(** A session with configuration requests: two documents are open, the
    cache holds an entry made before the change and the collector of the
    first document holds a finding of an earlier run. *)
Definition stale_session : server.State :=
  {| server.documents := [demo.doc "f()"; demo.readme];
     server.scanner := new_Scanner;
     server.collectorMap :=
       {[ "file:///foo.ts" :=
            [ {| range := (0, 1); errorLevel := Error;
                 pluginTips := "old"; extraMsg := None |} ];
          "file:///gone.ts" :=
            [ {| range := (2, 3); errorLevel := Hint;
                 pluginTips := "older"; extraMsg := None |} ] ]};
     server.hasConfigurationCapability := true;
     server.hasWorkspaceFolderCapability := false;
     server.hasDiagnosticRelatedInformationCapability := true;
     server.globalSettings := server.defaultSettings;
     server.documentSettings :=
       {[ "file:///foo.ts" :=
            {| maxNumberOfProblems := 1; scanPluginsConf := Some [] |} ]} |}.

(** ** The server as a whole *)

(** [connection.onDidChangeWatchedFiles]. *)
Definition onDidChangeWatchedFiles : M server.State unit :=
  emit (console_log (LogText "We received an file change event")).

(** The store of open documents belongs to the [TextDocuments] manager,
    which updates it on its own before it calls the server's handlers. *)
Definition set_documents (open : list TextDocument) (s : server.State)
  : server.State :=
  {| server.documents := open;
     server.scanner := server.scanner s;
     server.collectorMap := server.collectorMap s;
     server.hasConfigurationCapability := server.hasConfigurationCapability s;
     server.hasWorkspaceFolderCapability := server.hasWorkspaceFolderCapability s;
     server.hasDiagnosticRelatedInformationCapability :=
       server.hasDiagnosticRelatedInformationCapability s;
     server.globalSettings := server.globalSettings s;
     server.documentSettings := server.documentSettings s |}.

(** What reaches the handlers registered in [server.ts].  [store] stands for
    an update of the document store by the manager: any list of documents
    may follow any other, so that nothing is assumed about the manager. *)
Inductive Message :=
  | initialize (params : InitializeParams)
  | didChangeConfiguration (change : DidChangeConfigurationParams)
  | didChangeContent (document : TextDocument)
  | didClose (document : TextDocument)
  | didChangeWatchedFiles
  | store (open : list TextDocument).

Section Serve.
Context `{ext : Externals}.

(** The handler a message is dispatched to. *)
Definition handle (m : Message) : M server.State unit :=
  match m with
  | initialize params => server.onInitialize params
  | didChangeConfiguration change => server.onDidChangeConfiguration change
  | didChangeContent document => server.onDidChangeContent document
  | didClose document => server.onDidClose document
  | didChangeWatchedFiles => onDidChangeWatchedFiles
  | store open => modify (set_documents open)
  end.

(** The event loop: the messages are handled one after the other. *)
Definition serve (ms : list Message) : M server.State unit :=
  forEach ms handle.
End Serve.

(** The state a change of configuration leaves before it validates the open
    documents again. *)
Definition resetOn (change : DidChangeConfigurationParams) (s : server.State)
  : server.State :=
  server.set_collectorMap ((fun _ => []) <$> server.collectorMap s)
    (if server.hasConfigurationCapability s
     then server.set_documentSettings ∅ s
     else server.set_globalSettings
            (match languageServerExample (settings change) with
             | Some given => given
             | None => server.defaultSettings
             end) s).

(** The engine calls of a trace that start from an empty collector, the one
    registered for the file they scan. *)
Definition clean_call (call : ScannerConfig * ErrorCollector) : Prop :=
  snd call = [] /\ attached (scanPluginsConf_ (fst call)) = filePath (fst call).

(** A diagnostic as the server builds them for the document [u]: the fixed
    source, and related information that is absent or one entry about the
    range of the diagnostic in [u]. *)
Definition shaped (u : string) (d : Diagnostic) : Prop :=
  source d = "code-scanner"
  /\ (relatedInformation d = None
      \/ exists msg,
           msg <> ""
           /\ relatedInformation d
              = Some [ {| location := {| loc_uri := u; loc_range := d_range d |};
                          ri_message := msg |} ]).

(** ** The server with its suspension point

    [validateTextDocument] is an [async] function with one [await], on the
    settings.  Below, a call of it runs up to that [await] and leaves a
    suspended run behind; the run resumes, as a task of its own, once what
    it awaits is settled: at the end of the handler that started it when
    the settings were at hand, when the client's answer arrives otherwise.
    The answer is whatever the client sends (a settings object, [null] or
    an error) and may never come.  A document is an object of the
    [TextDocuments] manager: a run holds a reference to it and reads the
    text and the version it has when the run resumes.  The parameter of a
    configuration change carries settings that may be [null]. *)

(** [JSON.stringify(change)] for a change that carries a settings object. *)
Definition stringified (payload : SettingsPayload) : LogMessage :=
  LogChange {| settings := payload |}.

Module async.
Import scannerServer (scanPlugins, defaultScannerConfig).

(** How a promise of settings is settled: with the client's answer, a
    settings object or [null], or with the error the request failed
    with. *)
Inductive Settlement :=
  | fulfilled (value : option ISettings)
  | rejected (reason : Exception).

(** What a suspended run awaits: [Promise.resolve(globalSettings)], settled
    from the start, or the promise of a configuration request. *)
Inductive Awaited :=
  | resolved (value : ISettings)
  | promised (p : nat).

(** The parameter of [workspace/didChangeConfiguration]; [settings] is any
    JSON value, [null] included. *)
Record DidChangeConfigurationParams := { settings : option SettingsPayload }.

(** The module-level variables of [server.ts], with
    - [objects], the document objects the manager has created, by
      identity, of which the first [allocated] are in use, and [documents],
      the references the store holds;
    - [promises], the promises returned by [getConfiguration], by
      identity, each pending ([None]) or settled; the cache
      [documentSettings] holds references to them;
    - [suspended], the runs of [validateTextDocument] that wait at the
      [await], in the order they got there. *)
Record State := {
  objects : nat -> TextDocument;
  allocated : nat;
  documents : list nat;
  scanner : Scanner;
  collectorMap : gmap string ErrorCollector;
  hasConfigurationCapability : bool;
  hasWorkspaceFolderCapability : bool;
  hasDiagnosticRelatedInformationCapability : bool;
  globalSettings : ISettings;
  promises : list (option Settlement);
  documentSettings : gmap string nat;
  suspended : list (nat * Awaited)
}.

Definition set_objects (v : nat -> TextDocument) (s : State) : State :=
  {| objects := v; allocated := allocated s; documents := documents s;
     scanner := scanner s; collectorMap := collectorMap s;
     hasConfigurationCapability := hasConfigurationCapability s;
     hasWorkspaceFolderCapability := hasWorkspaceFolderCapability s;
     hasDiagnosticRelatedInformationCapability := hasDiagnosticRelatedInformationCapability s;
     globalSettings := globalSettings s; promises := promises s;
     documentSettings := documentSettings s; suspended := suspended s |}.

Definition set_allocated (v : nat) (s : State) : State :=
  {| objects := objects s; allocated := v; documents := documents s;
     scanner := scanner s; collectorMap := collectorMap s;
     hasConfigurationCapability := hasConfigurationCapability s;
     hasWorkspaceFolderCapability := hasWorkspaceFolderCapability s;
     hasDiagnosticRelatedInformationCapability := hasDiagnosticRelatedInformationCapability s;
     globalSettings := globalSettings s; promises := promises s;
     documentSettings := documentSettings s; suspended := suspended s |}.

Definition set_documents (v : list nat) (s : State) : State :=
  {| objects := objects s; allocated := allocated s; documents := v;
     scanner := scanner s; collectorMap := collectorMap s;
     hasConfigurationCapability := hasConfigurationCapability s;
     hasWorkspaceFolderCapability := hasWorkspaceFolderCapability s;
     hasDiagnosticRelatedInformationCapability := hasDiagnosticRelatedInformationCapability s;
     globalSettings := globalSettings s; promises := promises s;
     documentSettings := documentSettings s; suspended := suspended s |}.

Definition set_scanner (v : Scanner) (s : State) : State :=
  {| objects := objects s; allocated := allocated s;
     documents := documents s; scanner := v; collectorMap := collectorMap s;
     hasConfigurationCapability := hasConfigurationCapability s;
     hasWorkspaceFolderCapability := hasWorkspaceFolderCapability s;
     hasDiagnosticRelatedInformationCapability := hasDiagnosticRelatedInformationCapability s;
     globalSettings := globalSettings s; promises := promises s;
     documentSettings := documentSettings s; suspended := suspended s |}.

Definition set_collectorMap (v : gmap string ErrorCollector) (s : State) : State :=
  {| objects := objects s; allocated := allocated s;
     documents := documents s; scanner := scanner s; collectorMap := v;
     hasConfigurationCapability := hasConfigurationCapability s;
     hasWorkspaceFolderCapability := hasWorkspaceFolderCapability s;
     hasDiagnosticRelatedInformationCapability := hasDiagnosticRelatedInformationCapability s;
     globalSettings := globalSettings s; promises := promises s;
     documentSettings := documentSettings s; suspended := suspended s |}.

Definition set_globalSettings (v : ISettings) (s : State) : State :=
  {| objects := objects s; allocated := allocated s;
     documents := documents s; scanner := scanner s;
     collectorMap := collectorMap s;
     hasConfigurationCapability := hasConfigurationCapability s;
     hasWorkspaceFolderCapability := hasWorkspaceFolderCapability s;
     hasDiagnosticRelatedInformationCapability := hasDiagnosticRelatedInformationCapability s;
     globalSettings := v; promises := promises s;
     documentSettings := documentSettings s; suspended := suspended s |}.

Definition set_promises (v : list (option Settlement)) (s : State) : State :=
  {| objects := objects s; allocated := allocated s;
     documents := documents s; scanner := scanner s;
     collectorMap := collectorMap s;
     hasConfigurationCapability := hasConfigurationCapability s;
     hasWorkspaceFolderCapability := hasWorkspaceFolderCapability s;
     hasDiagnosticRelatedInformationCapability := hasDiagnosticRelatedInformationCapability s;
     globalSettings := globalSettings s; promises := v;
     documentSettings := documentSettings s; suspended := suspended s |}.

Definition set_documentSettings (v : gmap string nat) (s : State) : State :=
  {| objects := objects s; allocated := allocated s;
     documents := documents s; scanner := scanner s;
     collectorMap := collectorMap s;
     hasConfigurationCapability := hasConfigurationCapability s;
     hasWorkspaceFolderCapability := hasWorkspaceFolderCapability s;
     hasDiagnosticRelatedInformationCapability := hasDiagnosticRelatedInformationCapability s;
     globalSettings := globalSettings s; promises := promises s;
     documentSettings := v; suspended := suspended s |}.

Definition set_suspended (v : list (nat * Awaited)) (s : State) : State :=
  {| objects := objects s; allocated := allocated s;
     documents := documents s; scanner := scanner s;
     collectorMap := collectorMap s;
     hasConfigurationCapability := hasConfigurationCapability s;
     hasWorkspaceFolderCapability := hasWorkspaceFolderCapability s;
     hasDiagnosticRelatedInformationCapability := hasDiagnosticRelatedInformationCapability s;
     globalSettings := globalSettings s; promises := promises s;
     documentSettings := documentSettings s; suspended := v |}.

Definition set_capabilities (conf folders related : bool) (s : State) : State :=
  {| objects := objects s; allocated := allocated s; documents := documents s;
     scanner := scanner s; collectorMap := collectorMap s;
     hasConfigurationCapability := conf;
     hasWorkspaceFolderCapability := folders;
     hasDiagnosticRelatedInformationCapability := related;
     globalSettings := globalSettings s; promises := promises s;
     documentSettings := documentSettings s; suspended := suspended s |}.

#[export] Instance State_heap : Heap State := {
  collectors := collectorMap;
  with_collectors := set_collectorMap;
  the_scanner := scanner;
  with_scanner := set_scanner
}.

(** The state once the module is loaded. *)
Definition initial : State :=
  {| objects := fun _ => {| uri := ""; languageId := ""; version := 0; getText := "" |};
     allocated := 0%nat;
     documents := [];
     scanner := new_Scanner;
     collectorMap := ∅;
     hasConfigurationCapability := false;
     hasWorkspaceFolderCapability := false;
     hasDiagnosticRelatedInformationCapability := false;
     globalSettings := server.defaultSettings;
     promises := [];
     documentSettings := ∅;
     suspended := [] |}.

Definition getCollectorByUrl (uri : string) : M State CollectorRef :=
  let* s := get in
  if bool_decide (is_Some (collectorMap s !! uri)) then
    ret uri
  else
    modify (fun s => set_collectorMap (<[uri := []]> (collectorMap s)) s) ;;
    ret uri.

(** [connection.onInitialize]. *)
Definition onInitialize (params : InitializeParams) : M State unit :=
  let capabilities := capabilities params in
  modify (set_capabilities
    (match workspace capabilities with
     | Some w => truthy_flag (configuration w)
     | None => false
     end)
    (match workspace capabilities with
     | Some w => truthy_flag (workspaceFolders w)
     | None => false
     end)
    (match textDocument capabilities with
     | Some t =>
         match publishDiagnostics t with
         | Some p => truthy_flag (cap_relatedInformation p)
         | None => false
         end
     | None => false
     end)).

(** [JSON.stringify(change)] for a change whose settings are [null]. *)
Definition null_change : string :=
  let quote := String (Ascii.Ascii false true false false false true false false) "" in
  "{" +:+ quote +:+ "settings" +:+ quote +:+ ":null}".

Definition stringify (change : DidChangeConfigurationParams) : LogMessage :=
  match settings change with
  | Some payload => stringified payload
  | None => LogText null_change
  end.

(** [getDocumentSettings]: it returns a promise.  [getConfiguration] sends
    the request and returns a new, pending promise. *)
Definition getDocumentSettings (resource : string) : M State Awaited :=
  let* s := get in
  if negb (hasConfigurationCapability s) then
    ret (resolved (globalSettings s))
  else
    match documentSettings s !! resource with
    | Some result => ret (promised result)
    | None =>
        emit (workspace_getConfiguration resource "languageServerExample") ;;
        let result := length (promises s) in
        modify (fun s => set_promises (promises s ++ [None]) s) ;;
        modify (fun s => set_documentSettings (<[resource := result]> (documentSettings s)) s) ;;
        ret (promised result)
    end.

(** [documents.onDidClose]. *)
Definition onDidClose (e_document : nat) : M State unit :=
  let* s := get in
  modify (set_documentSettings
            (delete (uri (objects s e_document)) (documentSettings s))).

(** [connection.onDidChangeWatchedFiles]. *)
Definition onDidChangeWatchedFiles : M State unit :=
  emit (console_log (LogText "We received an file change event")).

Section Handlers.
Context `{ext : Externals}.

(** A call of [validateTextDocument]: the function runs up to its [await]
    and returns; nothing it does before can throw. *)
Definition validateTextDocument (textDocument : nat) : M State unit :=
  let* s := get in
  if negb (includes server.allLanguageIds
             (languageId (objects s textDocument))) then
    ret tt
  else
    let* awaited := getDocumentSettings (uri (objects s textDocument)) in
    modify (fun s => set_suspended (suspended s ++ [(textDocument, awaited)]) s).

(** The rest of [validateTextDocument], from the [await] on: the [await]
    throws the reason of a rejected promise; otherwise [settings] is what
    the promise was fulfilled with, and the document is read as it is
    now. *)
Definition validateTextDocument_resumed (textDocument : nat)
    (awaited : Settlement) : M State unit :=
  match awaited with
  | rejected reason => throw reason
  | fulfilled settings =>
      let* s := get in
      let textDocument := objects s textDocument in
      let* collector := getCollectorByUrl (uri textDocument) in
      ErrorCollector_clearAll collector ;;
      match settings with
      | None => throw (TypeError "Cannot read properties of null")
      | Some settings =>
          let scannerPlugins :=
            genScanPluginsConf
              (scanPluginsConf settings ?? scanPlugins defaultScannerConfig)
              collector in
          emit (console_log (LogText (uri textDocument))) ;;
          emit (console_log (LogPathOf (uri textDocument))) ;;
          emit (console_log (LogVersion (version textDocument))) ;;
          Scanner_setConfig
            {| scanPluginsConf_ := scannerPlugins;
               code := getText textDocument;
               filePath := uri textDocument;
               babelParsePlugins :=
                 server.getPluginByLanguageId (languageId textDocument) |} ;;
          try_catch Scanner_run
            (fun e => emit (console_error "code parse error!")) ;;
          let* errors := ErrorCollector_getCodeErrors collector in
          let* s := get in
          let diagnostics :=
            Map_forEach errors
              (server.diagnosticOf
                 (hasDiagnosticRelatedInformationCapability s) textDocument)
              [] in
          emit (sendDiagnostics (uri textDocument) diagnostics) ;;
          emit (sendRequest "request" "send request") ;;
          emit (sendNotification "notification" "send notification")
      end
  end.

(** [connection.onDidChangeConfiguration]. *)
Definition onDidChangeConfiguration (change : DidChangeConfigurationParams)
  : M State unit :=
  emit (console_log (stringify change)) ;;
  let* s := get in
  (if hasConfigurationCapability s then
     modify (set_documentSettings ∅)
   else
     match settings change with
     | None => throw (TypeError "Cannot read properties of null")
     | Some payload =>
         modify (set_globalSettings
                   (match languageServerExample payload with
                    | Some given => given
                    | None => server.defaultSettings
                    end))
     end) ;;
  modify (fun s => set_collectorMap ((fun _ => []) <$> collectorMap s) s) ;;
  let* s := get in
  forEach (documents s) validateTextDocument.

(** The state a change of configuration leaves before it validates the
    open documents again, when its first step does not throw. *)
Definition reset (change : DidChangeConfigurationParams) (s : State) : State :=
  set_collectorMap ((fun _ => []) <$> collectorMap s)
    (if hasConfigurationCapability s then set_documentSettings ∅ s
     else
       match settings change with
       | Some payload =>
           set_globalSettings
             (match languageServerExample payload with
              | Some given => given
              | None => server.defaultSettings
              end) s
       | None => s
       end).

(** [documents.onDidChangeContent]. *)
Definition onDidChangeContent (change_document : nat) : M State unit :=
  validateTextDocument change_document.

(** *** The event loop *)

(** What a suspended run awaits, if it is settled. *)
Definition settlement (s : State) (awaited : Awaited) : option Settlement :=
  match awaited with
  | resolved value => Some (fulfilled (Some value))
  | promised p => mjoin (promises s !! p)
  end.

(** The runs that can resume, each with what it resumes with, in the order
    they were suspended; and those that stay suspended. *)
Fixpoint ready (s : State) (runs : list (nat * Awaited))
  : list (nat * Settlement) :=
  match runs with
  | [] => []
  | (textDocument, awaited) :: runs =>
      match settlement s awaited with
      | Some settled => (textDocument, settled) :: ready s runs
      | None => ready s runs
      end
  end.

Fixpoint waiting (s : State) (runs : list (nat * Awaited))
  : list (nat * Awaited) :=
  match runs with
  | [] => []
  | (textDocument, awaited) :: runs =>
      match settlement s awaited with
      | Some _ => waiting s runs
      | None => (textDocument, awaited) :: waiting s runs
      end
  end.

(** Once the handler of a message has returned, the runs that can resume
    do, one after the other; a run that ends with an exception rejects
    its own promise, which nobody awaits. *)
Definition resume : M State unit :=
  let* s := get in
  modify (set_suspended (waiting s (suspended s))) ;;
  forEach (ready s (suspended s))
    (fun run => floating (validateTextDocument_resumed (fst run) (snd run))).

(** What the event loop takes up: the messages of the client that
    [server.ts] handles, the client's answer to a configuration request,
    and what the [TextDocuments] manager does to its objects and its
    store on its own (a new object, an edit of an object in place, which
    keeps its URI and language, any change of the store). *)
Inductive Message :=
  | initialize (params : InitializeParams)
  | didChangeConfiguration (change : DidChangeConfigurationParams)
  | didChangeContent (document : nat)
  | didClose (document : nat)
  | didChangeWatchedFiles
  | answered (p : nat) (settled : Settlement)
  | created (document : TextDocument)
  | edited (document : nat) (version : Z) (text : string)
  | stored (open : list nat).

(** The answer to a request settles its promise, once. *)
Definition settle (p : nat) (settled : Settlement) (s : State) : State :=
  match promises s !! p with
  | Some None => set_promises (<[p := Some settled]> (promises s)) s
  | _ => s
  end.

Definition create (document : TextDocument) (s : State) : State :=
  set_allocated (S (allocated s))
    (set_objects (fun r => if Nat.eqb r (allocated s) then document
                           else objects s r) s).

Definition edit (document : nat) (version : Z) (text : string) (s : State)
  : State :=
  set_objects (fun r => if Nat.eqb r document
                        then {| uri := uri (objects s r);
                                languageId := languageId (objects s r);
                                version := version;
                                getText := text |}
                        else objects s r) s.

(** The handler of a message.  The connection catches what a handler
    throws; the runs the handler had started before stay suspended. *)
Definition dispatch (m : Message) : M State unit :=
  match m with
  | initialize params => onInitialize params
  | didChangeConfiguration change => onDidChangeConfiguration change
  | didChangeContent document => onDidChangeContent document
  | didClose document => onDidClose document
  | didChangeWatchedFiles => onDidChangeWatchedFiles
  | answered p settled => modify (settle p settled)
  | created document => modify (create document)
  | edited document version text => modify (edit document version text)
  | stored open => modify (set_documents open)
  end.

Definition handle (m : Message) : M State unit :=
  floating (dispatch m) ;; resume.

Definition serve (ms : list Message) : M State unit :=
  forEach ms handle.
End Handlers.

End async.

(** ** What the properties of the suspended runs are stated with *)

Section AsyncReading.
Context `{ext : Externals}.
Import async.

(** What a call leaves to await, and what it sends. *)
Definition awaitedFor (s : State) (resource : string) : Awaited :=
  if hasConfigurationCapability s then
    match documentSettings s !! resource with
    | Some p => promised p
    | None => promised (length (promises s))
    end
  else resolved (globalSettings s).

Definition requested (s : State) (resource : string) : State :=
  if hasConfigurationCapability s then
    match documentSettings s !! resource with
    | Some p => s
    | None =>
        set_documentSettings
          (<[resource := length (promises s)]> (documentSettings s))
          (set_promises (promises s ++ [None]) s)
    end
  else s.

Definition request (s : State) (resource : string) : list Event :=
  if hasConfigurationCapability s then
    match documentSettings s !! resource with
    | Some _ => []
    | None => [workspace_getConfiguration resource "languageServerExample"]
    end
  else [].

(** What neither half of a run changes. *)
Definition same_session (s s' : State) : Prop :=
  hasConfigurationCapability s' = hasConfigurationCapability s
  /\ hasWorkspaceFolderCapability s' = hasWorkspaceFolderCapability s
  /\ hasDiagnosticRelatedInformationCapability s'
     = hasDiagnosticRelatedInformationCapability s
  /\ globalSettings s' = globalSettings s
  /\ objects s' = objects s
  /\ documents s' = documents s.

(** The runs that resume, one after the other. *)
Definition resumption (runs : list (nat * Settlement)) : M State unit :=
  forEach runs
    (fun run => floating (validateTextDocument_resumed (fst run) (snd run))).

(** Every promise the cache holds was asked for during the events
    [seen]. *)
Definition asked_anew (s : State) (seen : list Event) : Prop :=
  forall u p,
    documentSettings s !! u = Some p -> u ∈ configuration_requests seen.

(** The open documents a change of configuration starts a run for. *)
Definition restarted (s : State) : list nat :=
  List.filter (fun ref => supported (objects s ref)) (documents s).
End AsyncReading.

(** A run that completes and whose last acts are the publication for [u]
    and the two demonstration messages, the array being empty when the
    collector [left] behind is. *)
Definition ends_by_publishing {St} (u : string) (o : Outcome St unit)
    (left : option ErrorCollector) : Prop :=
  completion o = Normal tt
  /\ exists before diagnostics,
       events o = before ++ [sendDiagnostics u diagnostics;
                             sendRequest "request" "send request";
                             sendNotification "notification" "send notification"]
       /\ published before = []
       /\ (left = Some [] -> diagnostics = []).

(** A client that answers configuration requests opens one document: the
    run started for it waits for the answer to the first request. *)
Definition pull_session : list async.Message :=
  [ async.initialize
      {| capabilities :=
           {| workspace := Some {| configuration := Some true;
                                   workspaceFolders := None |};
              textDocument := None |} |};
    async.created (demo.doc "f()");
    async.stored [0%nat];
    async.didChangeContent 0 ].

(** A client that pushes its settings has one document open, validated
    under settings of its own. *)
Definition push_session : list async.Message :=
  [ async.created (demo.doc "f()");
    async.stored [0%nat];
    async.didChangeConfiguration
      {| async.settings :=
           Some {| languageServerExample :=
                     Some {| maxNumberOfProblems := 10;
                             scanPluginsConf :=
                               Some [ {| plugin := "needTryCatch";
                                         options := None |} ] |} |} |} ].

(** * Properties *)

(** ** The monad *)

Ltac run_monad :=
  cbv beta iota zeta delta
    [bind ret get modify emit throw try_catch after completion final events].

Lemma bind_after {St A B} (m : M St A) (k : A -> M St B) (s s' : St)
    (a : A) (evs : list Event) :
  m s = {| completion := Normal a; final := s'; events := evs |} ->
  bind m k s = after evs (k a s').
Proof. intros Hm. unfold bind. rewrite Hm. reflexivity. Qed.

(** A loop whose body pushes one element per entry builds the image of the
    entries, in order. *)
Lemma forEach_push_map {A B} (body : list B -> A -> list B) (f : A -> B)
    (xs : list A) (acc : list B) :
  (forall ds x, body ds x = push ds (f x)) ->
  Map_forEach xs body acc = acc ++ map f xs.
Proof.
  intros Hbody. unfold Map_forEach.
  revert acc. induction xs as [|x xs IH]; intros acc; simpl.
  - by rewrite app_nil_r.
  - rewrite IH, Hbody. unfold push. by rewrite <- app_assoc.
Qed.

Lemma includes_elem_of (xs : list string) (x : string) :
  includes xs x = true <-> x ∈ xs.
Proof.
  unfold includes. rewrite existsb_exists. split.
  - intros (y & Hin & Heq). apply String.eqb_eq in Heq. subst y.
    by apply list_elem_of_In.
  - intros Hin. exists x. split; [by apply list_elem_of_In | apply String.eqb_refl].
Qed.

Lemma published_app (xs ys : list Event) :
  published (xs ++ ys) = published xs ++ published ys.
Proof. apply omap_app. Qed.

Lemma engine_calls_app (xs ys : list Event) :
  engine_calls (xs ++ ys) = engine_calls xs ++ engine_calls ys.
Proof. apply omap_app. Qed.

Lemma configuration_requests_app (xs ys : list Event) :
  configuration_requests (xs ++ ys)
  = configuration_requests xs ++ configuration_requests ys.
Proof. apply omap_app. Qed.

(** ** One run of [validateTextDocument], spelled out *)

Section ServerRun.
Context `{ext : Externals}.
Import server.

Lemma getDocumentSettings_outcome (resource : string) (s : State) :
  getDocumentSettings resource s =
  {| completion := Normal (settingsFor s resource);
     final := set_documentSettings (cacheAfter s resource) s;
     events := fetch s resource |}.
Proof.
  unfold getDocumentSettings, settingsFor, cacheAfter, fetch.
  destruct s as [docs sc cm hc hw hr gs ds].
  run_monad. cbn [hasConfigurationCapability documentSettings globalSettings].
  destruct hc; cbn [negb]; [|reflexivity].
  destruct (ds !! resource) as [cached|]; reflexivity.
Qed.

Ltac run_server :=
  cbv beta iota zeta delta
    [bind ret get modify emit throw try_catch after completion final events
     collectors with_collectors the_scanner with_scanner State_heap
     set_collectorMap set_scanner set_documentSettings
     documents scanner collectorMap hasConfigurationCapability
     hasWorkspaceFolderCapability hasDiagnosticRelatedInformationCapability
     globalSettings documentSettings config attached scanPluginsConf_].

Lemma getCollectorByUrl_outcome (u : string) (s : State) :
  getCollectorByUrl u s =
  {| completion := Normal u;
     final := set_collectorMap
                (if bool_decide (is_Some (collectorMap s !! u))
                 then collectorMap s
                 else <[u := []]> (collectorMap s)) s;
     events := [] |}.
Proof.
  unfold getCollectorByUrl. destruct s as [docs sc cm hc hw hr gs ds].
  run_server. case_bool_decide; reflexivity.
Qed.

Lemma clear_created (u : string) (cm : gmap string ErrorCollector) :
  <[u := []]> (if bool_decide (is_Some (cm !! u)) then cm else <[u := []]> cm)
  = <[u := []]> cm.
Proof. case_bool_decide; [done | by rewrite insert_insert_eq]. Qed.

Lemma validateTextDocument_outcome (doc : TextDocument) (s : State) :
  includes allLanguageIds (languageId doc) = true ->
  let cfg := engineConfig doc (settingsFor s (uri doc)) in
  let result := scanner_run cfg [] in
  validateTextDocument doc s =
  {| completion := Normal tt;
     final :=
       set_collectorMap (<[uri doc := fst result]> (collectorMap s))
         (set_scanner {| config := Some cfg |}
            (set_documentSettings (cacheAfter s (uri doc)) s));
     events :=
       fetch s (uri doc)
       ++ [console_log (LogText (uri doc));
           console_log (LogPathOf (uri doc));
           console_log (LogVersion (version doc));
           scanner_run_call cfg []]
       ++ caught (snd result)
       ++ [sendDiagnostics (uri doc)
             (Map_forEach (fst result)
                (diagnosticOf (hasDiagnosticRelatedInformationCapability s) doc) []);
           sendRequest "request" "send request";
           sendNotification "notification" "send notification"] |}.
Proof.
  intros Hsup cfg result. unfold validateTextDocument. rewrite Hsup.
  cbn [negb].
  rewrite (bind_after _ _ _ _ _ _ (getDocumentSettings_outcome _ _)).
  rewrite (bind_after _ _ _ _ _ _ (getCollectorByUrl_outcome _ _)).
  subst result cfg. unfold engineConfig.
  generalize (settingsFor s (uri doc)) (cacheAfter s (uri doc)) (fetch s (uri doc)).
  intros settings cache fetched.
  destruct s as [docs sc cm hc hw hr gs ds].
  unfold ErrorCollector_clearAll, ErrorCollector_getCodeErrors,
    Scanner_setConfig, Scanner_run, genScanPluginsConf.
  run_server. rewrite clear_created, !lookup_insert_eq. cbn [default].
  destruct (scanner_run _ _) as [left [e|]]; cbn [fst snd caught];
    run_server;
    rewrite ?lookup_insert_eq, ?insert_insert_eq; cbn [default];
    rewrite ?app_nil_r, <- ?app_assoc; cbn [app]; reflexivity.
Qed.
End ServerRun.

(** ** One run of [ScannerServer.validate], spelled out *)

Section ScannerServerRun.
Context `{ext : Externals}.
Import scannerServer.

Ltac run_instance :=
  cbv beta iota zeta delta
    [bind ret get modify emit throw try_catch after completion final events
     collectors with_collectors the_scanner with_scanner State_heap
     on_connection collectorMap this _connection _scanner
     _allowRelatedInformation config attached scanPluginsConf_].

Lemma instance_getCollectorByUrl_outcome (u : string) (st : State) :
  getCollectorByUrl u st =
  {| completion := Normal u;
     final := {| collectorMap :=
                   if bool_decide (is_Some (collectorMap st !! u))
                   then collectorMap st
                   else <[u := []]> (collectorMap st);
                 this := this st |};
     events := [] |}.
Proof.
  unfold getCollectorByUrl. destruct st as [cm self]. run_instance.
  case_bool_decide; reflexivity.
Qed.

Lemma validate_outcome (doc : TextDocument) (settings : ISettings) (st : State) :
  includes allLanguageIds (languageId doc) = true ->
  _connection (this st) = Some connection ->
  let cfg := instanceConfig doc settings in
  let result := scanner_run cfg [] in
  validate doc settings st =
  {| completion := Normal tt;
     final :=
       {| collectorMap := <[uri doc := fst result]> (collectorMap st);
          this := {| _connection := Some connection;
                     _scanner := {| config := Some cfg |};
                     _allowRelatedInformation := _allowRelatedInformation (this st) |} |};
     events :=
       [console_log (LogText (uri doc));
        console_log (LogPathOf (uri doc));
        console_log (LogVersion (version doc));
        scanner_run_call cfg []]
       ++ caught (snd result)
       ++ [sendDiagnostics (uri doc)
             (Map_forEach (fst result) (diagnosticOf (this st) doc) []);
           sendRequest "request" "send request";
           sendNotification "notification" "send notification"] |}.
Proof.
  intros Hsup Hbound cfg result. unfold validate. rewrite Hsup. cbn [negb].
  subst result cfg. unfold instanceConfig.
  rewrite (bind_after _ _ _ _ _ _ (instance_getCollectorByUrl_outcome _ _)).
  destruct st as [cm [conn sc allow]]. cbn [this _connection] in Hbound.
  subst conn.
  unfold ErrorCollector_clearAll, ErrorCollector_getCodeErrors,
    Scanner_setConfig, Scanner_run, genScanPluginsConf.
  run_instance. rewrite clear_created, !lookup_insert_eq. cbn [default].
  destruct (scanner_run _ _) as [left [e|]]; cbn [fst snd caught];
    run_instance;
    rewrite ?lookup_insert_eq, ?insert_insert_eq; cbn [default];
    unfold diagnosticOf; cbn [_allowRelatedInformation];
    reflexivity.
Qed.

(** Before [bindConnection], a run on a supported document clears the
    collector and then fails on the first use of the connection. *)
Lemma validate_unbound (doc : TextDocument) (settings : ISettings) (st : State) :
  includes allLanguageIds (languageId doc) = true ->
  _connection (this st) = None ->
  validate doc settings st =
  {| completion := Throw (TypeError "Cannot read properties of null");
     final := {| collectorMap := <[uri doc := []]> (collectorMap st);
                 this := this st |};
     events := [] |}.
Proof.
  intros Hsup Hnull. unfold validate. rewrite Hsup. cbn [negb].
  rewrite (bind_after _ _ _ _ _ _ (instance_getCollectorByUrl_outcome _ _)).
  destruct st as [cm [conn sc allow]]. cbn [this _connection] in Hnull.
  subst conn.
  unfold ErrorCollector_clearAll.
  run_instance. rewrite clear_created. reflexivity.
Qed.
End ScannerServerRun.

(** ** The loop over the findings *)

Section Mapping.
Context `{ext : Externals}.

Lemma server_diagnosticOf_push allow doc ds error :
  server.diagnosticOf allow doc ds error = push ds (diagnosticFor allow doc error).
Proof.
  unfold server.diagnosticOf, diagnosticFor.
  destruct (allow && truthy (extraMsg error)); reflexivity.
Qed.

Lemma instance_diagnosticOf_push self doc ds error :
  scannerServer.diagnosticOf self doc ds error
  = push ds (diagnosticFor (scannerServer._allowRelatedInformation self) doc error).
Proof.
  unfold scannerServer.diagnosticOf, diagnosticFor.
  destruct (scannerServer._allowRelatedInformation self && truthy (extraMsg error));
    reflexivity.
Qed.

Lemma server_loop allow doc errors :
  Map_forEach errors (server.diagnosticOf allow doc) []
  = map (diagnosticFor allow doc) errors.
Proof.
  apply (forEach_push_map _ (diagnosticFor allow doc) errors []).
  intros ds e. apply server_diagnosticOf_push.
Qed.

Lemma instance_loop self doc errors :
  Map_forEach errors (scannerServer.diagnosticOf self doc) []
  = map (diagnosticFor (scannerServer._allowRelatedInformation self) doc) errors.
Proof.
  apply (forEach_push_map _
           (diagnosticFor (scannerServer._allowRelatedInformation self) doc)
           errors []).
  intros ds e. apply instance_diagnosticOf_push.
Qed.

Lemma one_per_finding allow doc errors :
  Forall2 (fun error d => server.diagnosticOf allow doc [] error = [d])
    errors (map (diagnosticFor allow doc) errors).
Proof.
  induction errors as [|e errors IH]; simpl; constructor; [|exact IH].
  apply server_diagnosticOf_push.
Qed.
End Mapping.

Lemma supported_includes (l : string) :
  l ∈ ["javascript"; "typescript"; "javascriptreact"; "typescriptreact"] ->
  includes server.allLanguageIds l = true
  /\ includes scannerServer.allLanguageIds l = true.
Proof. intros Hin. split; by apply includes_elem_of. Qed.

Lemma unsupported_includes (l : string) :
  l ∉ ["javascript"; "typescript"; "javascriptreact"; "typescriptreact"] ->
  includes server.allLanguageIds l = false
  /\ includes scannerServer.allLanguageIds l = false.
Proof.
  intros Hout. split; apply not_true_is_false; intros Hin;
    by apply includes_elem_of in Hin.
Qed.

(** ** The events of a run *)

Section RunEvents.
Context `{ext : Externals}.

Lemma published_fetch s resource : published (fetch s resource) = [].
Proof.
  unfold fetch. destruct (server.hasConfigurationCapability s); [|reflexivity].
  destruct (server.documentSettings s !! resource); reflexivity.
Qed.

Lemma engine_calls_fetch s resource : engine_calls (fetch s resource) = [].
Proof.
  unfold fetch. destruct (server.hasConfigurationCapability s); [|reflexivity].
  destruct (server.documentSettings s !! resource); reflexivity.
Qed.

Lemma published_caught failure : published (caught failure) = [].
Proof. destruct failure; reflexivity. Qed.

Lemma engine_calls_caught failure : engine_calls (caught failure) = [].
Proof. destruct failure; reflexivity. Qed.

(** What a run of [validateTextDocument] publishes. *)
Lemma validateTextDocument_published doc s :
  includes server.allLanguageIds (languageId doc) = true ->
  published (events (server.validateTextDocument doc s)) =
  [(uri doc,
    map (diagnosticFor (server.hasDiagnosticRelatedInformationCapability s) doc)
      (fst (scanner_run (engineConfig doc (settingsFor s (uri doc))) [])))].
Proof.
  intros Hsup. rewrite (validateTextDocument_outcome doc s Hsup).
  cbn [events]. rewrite !published_app, published_fetch, published_caught.
  rewrite server_loop. reflexivity.
Qed.

Lemma validateTextDocument_engine_calls doc s :
  includes server.allLanguageIds (languageId doc) = true ->
  engine_calls (events (server.validateTextDocument doc s)) =
  [(engineConfig doc (settingsFor s (uri doc)), [])].
Proof.
  intros Hsup. rewrite (validateTextDocument_outcome doc s Hsup).
  cbn [events]. rewrite !engine_calls_app, engine_calls_fetch, engine_calls_caught.
  reflexivity.
Qed.

(** What a run of [ScannerServer.validate] publishes, once a connection
    is bound. *)
Lemma validate_published doc settings st :
  includes scannerServer.allLanguageIds (languageId doc) = true ->
  scannerServer._connection (scannerServer.this st) = Some connection ->
  published (events (scannerServer.validate doc settings st)) =
  [(uri doc,
    map (diagnosticFor
           (scannerServer._allowRelatedInformation (scannerServer.this st)) doc)
      (fst (scanner_run (instanceConfig doc settings) [])))].
Proof.
  intros Hsup Hbound. rewrite (validate_outcome doc settings st Hsup Hbound).
  cbn [events]. rewrite !published_app, published_caught.
  rewrite instance_loop. reflexivity.
Qed.

Lemma validate_engine_calls doc settings st :
  includes scannerServer.allLanguageIds (languageId doc) = true ->
  scannerServer._connection (scannerServer.this st) = Some connection ->
  engine_calls (events (scannerServer.validate doc settings st)) =
  [(instanceConfig doc settings, [])].
Proof.
  intros Hsup Hbound. rewrite (validate_outcome doc settings st Hsup Hbound).
  cbn [events]. rewrite !engine_calls_app, engine_calls_caught.
  reflexivity.
Qed.

Lemma validateTextDocument_unsupported doc s :
  includes server.allLanguageIds (languageId doc) = false ->
  server.validateTextDocument doc s
  = {| completion := Normal tt; final := s; events := [] |}.
Proof. intros Hout. unfold server.validateTextDocument. by rewrite Hout. Qed.

Lemma validate_unsupported doc settings st :
  includes scannerServer.allLanguageIds (languageId doc) = false ->
  scannerServer.validate doc settings st
  = {| completion := Normal tt; final := st; events := [] |}.
Proof. intros Hout. unfold scannerServer.validate. by rewrite Hout. Qed.
End RunEvents.

(** ** Two runs in a row *)

Section Idempotence.
Context `{ext : Externals}.

Lemma settingsFor_after_run doc s :
  includes server.allLanguageIds (languageId doc) = true ->
  settingsFor (final (server.validateTextDocument doc s)) (uri doc)
  = settingsFor s (uri doc).
Proof.
  intros Hsup. rewrite (validateTextDocument_outcome doc s Hsup). cbn [final].
  destruct s as [docs sc cm hc hw hr gs ds].
  unfold settingsFor, cacheAfter.
  cbn [server.hasConfigurationCapability server.documentSettings
       server.globalSettings server.set_collectorMap server.set_scanner
       server.set_documentSettings].
  destruct hc; [|reflexivity].
  destruct (ds !! uri doc) as [cached|] eqn:Hcache.
  - by rewrite Hcache.
  - by rewrite lookup_insert_eq.
Qed.

Lemma capability_after_run doc s :
  server.hasDiagnosticRelatedInformationCapability
    (final (server.validateTextDocument doc s))
  = server.hasDiagnosticRelatedInformationCapability s.
Proof.
  destruct (includes server.allLanguageIds (languageId doc)) eqn:Hsup.
  - rewrite (validateTextDocument_outcome doc s Hsup). by destruct s.
  - by rewrite (validateTextDocument_unsupported doc s Hsup).
Qed.
End Idempotence.

(** ** The states of an instance *)

Section Instance.
Context `{ext : Externals}.

Lemma instance_state_fields arg st :
  instance_state arg st ->
  scannerServer._connection (scannerServer.this st) = Some connection
  /\ scannerServer._allowRelatedInformation (scannerServer.this st) = true.
Proof.
  induction 1 as [cm | doc settings st Hst [Hbound Hallow]].
  - split; reflexivity.
  - destruct (includes scannerServer.allLanguageIds (languageId doc)) eqn:Hsup.
    + rewrite (validate_outcome doc settings st Hsup Hbound).
      cbn [final scannerServer.this scannerServer._connection
           scannerServer._allowRelatedInformation].
      by split.
    + rewrite (validate_unsupported doc settings st Hsup). by split.
Qed.

Lemma configs_agree doc settings :
  instanceConfig doc settings = engineConfig doc settings.
Proof. reflexivity. Qed.
End Instance.

(** ** A change of configuration *)

Section ConfigurationChange.
Context `{ext : Externals}.
Import server.

Lemma validateTextDocument_normal d s :
  completion (validateTextDocument d s) = Normal tt.
Proof.
  destruct (includes allLanguageIds (languageId d)) eqn:Hsup.
  - by rewrite (validateTextDocument_outcome d s Hsup).
  - by rewrite (validateTextDocument_unsupported d s Hsup).
Qed.

Lemma floating_validate d s :
  floating (validateTextDocument d) s = validateTextDocument d s.
Proof.
  unfold floating, try_catch. pose proof (validateTextDocument_normal d s) as Hn.
  destruct (validateTextDocument d s) as [c s' evs]. cbn [completion] in Hn.
  subst c. reflexivity.
Qed.

Lemma revalidate_cons d docs s :
  revalidate (d :: docs) s
  = after (events (validateTextDocument d s))
      (revalidate docs (final (validateTextDocument d s))).
Proof.
  unfold revalidate. cbn [forEach]. unfold bind. rewrite floating_validate.
  pose proof (validateTextDocument_normal d s) as Hn.
  destruct (validateTextDocument d s) as [c s' evs]. cbn [completion] in Hn.
  subst c. reflexivity.
Qed.

Lemma completion_after {St A} evs (o : Outcome St A) :
  completion (after evs o) = completion o.
Proof. by destruct o. Qed.

Lemma final_after {St A} evs (o : Outcome St A) : final (after evs o) = final o.
Proof. by destruct o. Qed.

Lemma events_after {St A} evs (o : Outcome St A) :
  events (after evs o) = evs ++ events o.
Proof. by destruct o. Qed.

Lemma revalidate_normal docs s : completion (revalidate docs s) = Normal tt.
Proof.
  revert s. induction docs as [|d docs IH]; intros s; [reflexivity|].
  rewrite revalidate_cons, completion_after. apply IH.
Qed.

(** Each open document of a supported language is published once, in the
    order of the store. *)
Lemma revalidate_published docs s :
  map fst (published (events (revalidate docs s)))
  = map uri (List.filter supported docs).
Proof.
  revert s. induction docs as [|d docs IH]; intros s; [reflexivity|].
  rewrite revalidate_cons, events_after, published_app, map_app, IH.
  cbn [List.filter]. unfold supported at 2.
  destruct (includes allLanguageIds (languageId d)) eqn:Hsup.
  - by rewrite (validateTextDocument_published d s Hsup).
  - by rewrite (validateTextDocument_unsupported d s Hsup).
Qed.

(** What a run leaves alone. *)
Lemma validateTextDocument_frame d s :
  let s' := final (validateTextDocument d s) in
  hasConfigurationCapability s' = hasConfigurationCapability s
  /\ globalSettings s' = globalSettings s
  /\ documents s' = documents s
  /\ (forall u, u <> uri d -> collectorMap s' !! u = collectorMap s !! u)
  /\ (supported d = false -> collectorMap s' = collectorMap s).
Proof.
  destruct (includes allLanguageIds (languageId d)) eqn:Hsup.
  - rewrite (validateTextDocument_outcome d s Hsup). cbn [final].
    destruct s as [docs sc cm hc hw hr gs ds].
    cbn [hasConfigurationCapability globalSettings documents collectorMap
         set_collectorMap set_scanner set_documentSettings].
    repeat split.
    + intros u Hu. by rewrite lookup_insert_ne.
    + unfold supported. rewrite Hsup. discriminate.
  - rewrite (validateTextDocument_unsupported d s Hsup). cbn [final].
    repeat split.
Qed.

Lemma revalidate_frame docs s :
  let s' := final (revalidate docs s) in
  hasConfigurationCapability s' = hasConfigurationCapability s
  /\ globalSettings s' = globalSettings s
  /\ documents s' = documents s
  /\ (forall u, u ∉ map uri (List.filter supported docs) ->
        collectorMap s' !! u = collectorMap s !! u).
Proof.
  revert s. induction docs as [|d docs IH]; intros s.
  - cbn. repeat split.
  - cbn zeta. rewrite revalidate_cons, final_after.
    destruct (IH (final (validateTextDocument d s))) as (Hc & Hg & Hd & Hcm).
    destruct (validateTextDocument_frame d s) as (Hc' & Hg' & Hd' & Hcm' & Hun).
    rewrite Hc, Hg, Hd. repeat split; [done..|].
    intros u Hu. cbn [List.filter] in Hu.
    destruct (supported d) eqn:Hsup.
    + cbn [map] in Hu. apply not_elem_of_cons in Hu as [Hne Hu].
      rewrite (Hcm u Hu). by apply Hcm'.
    + rewrite (Hcm u Hu). by rewrite (Hun eq_refl).
Qed.

Lemma validateTextDocument_fresh d s seen :
  fresh_cache s seen ->
  fresh_cache (final (validateTextDocument d s))
    (seen ++ events (validateTextDocument d s)).
Proof.
  intros Hfresh u cached.
  destruct (includes allLanguageIds (languageId d)) eqn:Hsup.
  - rewrite (validateTextDocument_outcome d s Hsup). cbn [final events].
    rewrite !configuration_requests_app.
    unfold cacheAfter, fetch.
    destruct s as [docs sc cm hc hw hr gs ds].
    cbn [hasConfigurationCapability globalSettings documents collectorMap
         documentSettings set_collectorMap set_scanner set_documentSettings].
    destruct hc.
    + destruct (ds !! uri d) as [hit|] eqn:Hhit.
      * intros Hu. destruct (Hfresh u cached Hu) as [-> Hin].
        split; [done|]. apply elem_of_app. by left.
      * destruct (decide (uri d = u)) as [<-|Hne].
        -- rewrite lookup_insert_eq. intros [= <-]. split; [done|].
           apply elem_of_app. right. cbn. left.
        -- rewrite lookup_insert_ne by done. intros Hu.
           destruct (Hfresh u cached Hu) as [-> Hin].
           split; [done|]. apply elem_of_app. by left.
    + intros Hu. destruct (Hfresh u cached Hu) as [-> Hin].
      split; [done|]. apply elem_of_app. by left.
  - rewrite (validateTextDocument_unsupported d s Hsup). cbn [final events].
    rewrite app_nil_r. apply Hfresh.
Qed.

Lemma revalidate_fresh docs s seen :
  fresh_cache s seen ->
  fresh_cache (final (revalidate docs s)) (seen ++ events (revalidate docs s)).
Proof.
  revert s seen. induction docs as [|d docs IH]; intros s seen Hfresh.
  - cbn. by rewrite app_nil_r.
  - rewrite revalidate_cons, final_after, events_after, app_assoc.
    apply IH. by apply validateTextDocument_fresh.
Qed.
End ConfigurationChange.

(** ** The claims *)


Section RunStartsCleanWitness.
#[local] Existing Instance demo.externals.

End RunStartsCleanWitness.

(** C2: on a document whose language is none of javascript, typescript,
    javascriptreact and typescriptreact, both [validateTextDocument] and
    [ScannerServer.validate] return at once: the state (collectors, cached
    settings, scanner) is the one they started from, and no event leaves
    the server, so the engine is not run and nothing is published. *)
Theorem unsupported_language_is_noop `{ext : Externals}
    (doc : TextDocument) (s : server.State)
    (settings : ISettings) (st : scannerServer.State) :
  languageId doc ∉ ["javascript"; "typescript"; "javascriptreact"; "typescriptreact"] ->
  server.validateTextDocument doc s
  = {| completion := Normal tt; final := s; events := [] |}
  /\ scannerServer.validate doc settings st
     = {| completion := Normal tt; final := st; events := [] |}.
Proof.
  intros Hout. apply unsupported_includes in Hout as [Hserver Hinstance].
  split.
  - by apply validateTextDocument_unsupported.
  - by apply validate_unsupported.
Qed.

Section UnsupportedLanguageWitness.
#[local] Existing Instance demo.externals.

Lemma unsupported_language_witness :
  server.validateTextDocument demo.readme server.initial
  = {| completion := Normal tt; final := server.initial; events := [] |}
  /\ scannerServer.validate demo.readme server.defaultSettings
       {| scannerServer.collectorMap := ∅;
          scannerServer.this := scannerServer.constructor None |}
     = {| completion := Normal tt;
          final := {| scannerServer.collectorMap := ∅;
                      scannerServer.this := scannerServer.constructor None |};
          events := [] |}.
Proof.
  apply (unsupported_language_is_noop demo.readme).
  apply (bool_decide_unpack _). vm_compute. exact I.
Defined.
End UnsupportedLanguageWitness.

Section EmptyPluginList.
#[local] Existing Instance demo.externals.

End EmptyPluginList.


Section PluginConfigurationWitness.
#[local] Existing Instance demo.externals.

End PluginConfigurationWitness.

Section RelatedInformationGate.
#[local] Existing Instance demo.externals.

End RelatedInformationGate.


Section FindingMapsWitness.
#[local] Existing Instance demo.externals.

End FindingMapsWitness.

Section CollectorKeptOnClose.
#[local] Existing Instance demo.externals.

(** C5 fails for the collector: a document is validated with a client that
    supports configuration requests, then closed; the cached settings of
    its URI are gone, its collector is still in the registry, with the
    findings of the last run in it. *)
Lemma collector_survives_close :
  let pull :=
    {| capabilities :=
         {| workspace := Some {| configuration := Some true;
                                 workspaceFolders := None |};
            textDocument := None |} |} in
  let opened := final (server.onInitialize pull server.initial) in
  let validated := final (server.onDidChangeContent (demo.doc "f()") opened) in
  let closed := final (server.onDidClose (demo.doc "f()") validated) in
  is_Some (server.documentSettings validated !! "file:///foo.ts")
  /\ server.documentSettings closed !! "file:///foo.ts" = None
  /\ server.collectorMap closed !! "file:///foo.ts" <> None
  /\ length (default [] (server.collectorMap closed !! "file:///foo.ts")) = 5%nat.
Proof.
  split; [by eexists|]. split; [reflexivity|]. split; [discriminate|reflexivity].
Defined.
End CollectorKeptOnClose.

(** C5, amended: after [didClose] for a document, the settings cache has
    no entry for the document's URI and its other entries are as before;
    the registry of collectors is not touched, so a collector created for
    that URI by an earlier run stays in it. *)
Theorem close_drops_cached_settings_only
    (e_document : TextDocument) (s : server.State) :
  let o := server.onDidClose e_document s in
  completion o = Normal tt
  /\ events o = []
  /\ server.documentSettings (final o) !! uri e_document = None
  /\ (forall other, other <> uri e_document ->
        server.documentSettings (final o) !! other = server.documentSettings s !! other)
  /\ server.collectorMap (final o) = server.collectorMap s.
Proof.
  destruct s. unfold server.onDidClose. run_monad.
  cbn [server.documentSettings server.collectorMap server.set_documentSettings].
  repeat split.
  - apply lookup_delete_eq.
  - intros other Hother. by apply lookup_delete_ne.
Qed.

(** C6: when the engine's run raises a failure during a validation, the
    failure is caught: the run of [validateTextDocument] completes normally,
    an error line is logged, and the diagnostics published are those of the
    findings the collector held when the engine failed. *)
Theorem engine_failure_is_caught_and_run_publishes `{ext : Externals}
    (doc : TextDocument) (s : server.State)
    (cfg : ScannerConfig) (found left : ErrorCollector) (failure : Exception) :
  languageId doc ∈ ["javascript"; "typescript"; "javascriptreact"; "typescriptreact"] ->
  let o := server.validateTextDocument doc s in
  (cfg, found) ∈ engine_calls (events o) ->
  scanner_run cfg found = (left, Some failure) ->
  completion o = Normal tt
  /\ console_error "code parse error!" ∈ events o
  /\ server.collectorMap (final o) !! uri doc = Some left
  /\ exists diagnostics,
       published (events o) = [(uri doc, diagnostics)]
       /\ Forall2
            (fun error d =>
               server.diagnosticOf
                 (server.hasDiagnosticRelatedInformationCapability s) doc [] error = [d])
            left diagnostics.
Proof.
  intros Hsup o Hcall Hfail. apply supported_includes in Hsup as [Hsup _].
  subst o. rewrite (validateTextDocument_engine_calls doc s Hsup) in Hcall.
  apply list_elem_of_singleton in Hcall. injection Hcall as -> ->.
  rewrite (validateTextDocument_published doc s Hsup).
  rewrite (validateTextDocument_outcome doc s Hsup).
  cbn [completion events final]. rewrite Hfail. cbn [fst snd caught].
  split; [reflexivity|]. split; [|split].
  - rewrite !elem_of_app. right. right. left. constructor.
  - destruct s. cbn [server.collectorMap server.set_collectorMap].
    apply lookup_insert_eq.
  - exists (map (diagnosticFor (server.hasDiagnosticRelatedInformationCapability s) doc)
              left).
    split; [reflexivity|]. apply one_per_finding.
Qed.

Section EngineFailureWitness.
#[local] Existing Instance demo.externals.

Lemma engine_failure_witness :
  completion (server.validateTextDocument (demo.doc "(") server.initial) = Normal tt
  /\ console_error "code parse error!"
     ∈ events (server.validateTextDocument (demo.doc "(") server.initial)
  /\ server.collectorMap
       (final (server.validateTextDocument (demo.doc "(") server.initial))
     !! "file:///foo.ts"
     = Some [demo.finding "(" {| plugin := "needTryCatch";
                                 options := Some [("level", JsNumber 2)] |}]
  /\ exists diagnostics,
       published (events (server.validateTextDocument (demo.doc "(") server.initial))
       = [("file:///foo.ts", diagnostics)]
       /\ Forall2
            (fun error d => server.diagnosticOf false (demo.doc "(") [] error = [d])
            [demo.finding "(" {| plugin := "needTryCatch";
                                 options := Some [("level", JsNumber 2)] |}]
            diagnostics.
Proof.
  apply (engine_failure_is_caught_and_run_publishes
           (demo.doc "(") server.initial
           (engineConfig (demo.doc "(") server.defaultSettings) []
           [demo.finding "(" {| plugin := "needTryCatch";
                                options := Some [("level", JsNumber 2)] |}]
           (ScannerFailure "Unexpected token")).
  - apply (bool_decide_unpack _). vm_compute. exact I.
  - vm_compute. apply list_elem_of_here.
  - reflexivity.
Defined.
End EngineFailureWitness.

(** C9: validating a document twice in a row, nothing happening in between,
    publishes the same diagnostics both times (the same notifications with
    the same arrays), and the engine is run on the same configuration and
    on an empty collector both times. *)
Theorem validate_twice_publishes_the_same `{ext : Externals}
    (doc : TextDocument) (s : server.State) :
  let first := server.validateTextDocument doc s in
  let second := server.validateTextDocument doc (final first) in
  published (events second) = published (events first)
  /\ engine_calls (events second) = engine_calls (events first).
Proof.
  intros first second. subst first second.
  destruct (includes server.allLanguageIds (languageId doc)) eqn:Hsup.
  - rewrite !(validateTextDocument_published doc _ Hsup).
    rewrite !(validateTextDocument_engine_calls doc _ Hsup).
    rewrite capability_after_run, (settingsFor_after_run doc s Hsup).
    split; reflexivity.
  - rewrite !(validateTextDocument_unsupported doc _ Hsup). split; reflexivity.
Qed.

(** C10: whatever is passed to the constructor of [ScannerServer], the
    instance is the same and its flag is [true]; and in every state the
    bound instance goes through, a call of [validate] publishes what
    [validateTextDocument] publishes for the same document and settings
    in a session that negotiated the related-information capability. *)
Theorem instance_publishes_as_with_capability `{ext : Externals}
    (arg : option bool) (st : scannerServer.State)
    (doc : TextDocument) (settings : ISettings) (s : server.State) :
  instance_state arg st ->
  server.hasDiagnosticRelatedInformationCapability s = true ->
  completion (server.getDocumentSettings (uri doc) s) = Normal settings ->
  published (events (scannerServer.validate doc settings st))
  = published (events (server.validateTextDocument doc s))
  /\ scannerServer.constructor arg = scannerServer.constructor (Some true)
  /\ scannerServer._allowRelatedInformation (scannerServer.this st) = true.
Proof.
  intros Hst Hcap Hsettings.
  destruct (instance_state_fields arg st Hst) as [Hbound Hallow].
  split; [|split; [reflexivity | exact Hallow]].
  rewrite getDocumentSettings_outcome in Hsettings. cbn [completion] in Hsettings.
  injection Hsettings as Hsettings.
  destruct (includes server.allLanguageIds (languageId doc)) eqn:Hsup.
  - rewrite (validateTextDocument_published doc s Hsup).
    rewrite (validate_published doc settings st Hsup Hbound).
    by rewrite Hallow, Hcap, Hsettings, configs_agree.
  - rewrite (validateTextDocument_unsupported doc s Hsup).
    by rewrite (validate_unsupported doc settings st Hsup).
Qed.

Section InstanceWitness.
#[local] Existing Instance demo.externals.

Lemma instance_publishes_witness :
  let negotiated :=
    {| capabilities :=
         {| workspace := None;
            textDocument :=
              Some {| publishDiagnostics :=
                        Some {| cap_relatedInformation := Some true |} |} |} |} in
  let s := final (server.onInitialize negotiated server.initial) in
  let st := final (scannerServer.bindConnection connection
                     {| scannerServer.collectorMap := ∅;
                        scannerServer.this := scannerServer.constructor (Some false) |}) in
  published (events (scannerServer.validate (demo.doc "f()") server.defaultSettings st))
  = published (events (server.validateTextDocument (demo.doc "f()") s)).
Proof.
  intros negotiated s st.
  apply (instance_publishes_as_with_capability (Some false) st
           (demo.doc "f()") server.defaultSettings s).
  - apply (instance_bound (Some false) ∅).
  - reflexivity.
  - reflexivity.
Defined.
End InstanceWitness.

(** * Further properties of the code *)

(** ** The registry of collectors *)

(** [getCollectorByUrl] of [server.ts] gets or creates: the call always
    returns the collector registered under the URI and sends nothing; a
    collector that was registered keeps its findings, a new one is empty;
    the collectors of other URIs are as before; and a second call changes
    nothing at all. *)
Theorem server_getCollectorByUrl_gets_or_creates (u : string) (s : server.State) :
  let o := server.getCollectorByUrl u s in
  completion o = Normal u
  /\ events o = []
  /\ server.collectorMap (final o) !! u
     = Some (default [] (server.collectorMap s !! u))
  /\ (forall v, v <> u ->
        server.collectorMap (final o) !! v = server.collectorMap s !! v)
  /\ server.getCollectorByUrl u (final o)
     = {| completion := Normal u; final := final o; events := [] |}.
Proof.
  intros o. subst o. rewrite !getCollectorByUrl_outcome.
  cbn [completion final events].
  destruct s as [docs sc cm hc hw hr gs ds].
  cbn [server.collectorMap server.set_collectorMap].
  unfold ErrorCollector in *.
  case_bool_decide as Hreg.
  - destruct Hreg as [c Hc]. rewrite Hc. cbn [default].
    rewrite bool_decide_true by eauto. repeat split; done.
  - apply eq_None_not_Some in Hreg. rewrite Hreg. cbn [default].
    rewrite lookup_insert_eq.
    rewrite bool_decide_true by eauto. repeat split; try done.
    intros v Hv. by rewrite lookup_insert_ne.
Qed.

(** The copy of [getCollectorByUrl] in [scannerServer.ts] behaves the same
    on the registry of that module, and leaves the instance alone. *)
Theorem instance_getCollectorByUrl_gets_or_creates
    (u : string) (st : scannerServer.State) :
  let o := scannerServer.getCollectorByUrl u st in
  completion o = Normal u
  /\ events o = []
  /\ scannerServer.this (final o) = scannerServer.this st
  /\ scannerServer.collectorMap (final o) !! u
     = Some (default [] (scannerServer.collectorMap st !! u))
  /\ (forall v, v <> u ->
        scannerServer.collectorMap (final o) !! v
        = scannerServer.collectorMap st !! v)
  /\ scannerServer.getCollectorByUrl u (final o)
     = {| completion := Normal u; final := final o; events := [] |}.
Proof.
  intros o. subst o. rewrite !instance_getCollectorByUrl_outcome.
  cbn [completion final events].
  destruct st as [cm self].
  cbn [scannerServer.collectorMap scannerServer.this].
  unfold ErrorCollector in *.
  case_bool_decide as Hreg.
  - destruct Hreg as [c Hc]. rewrite Hc. cbn [default].
    rewrite bool_decide_true by eauto. repeat split; done.
  - apply eq_None_not_Some in Hreg. rewrite Hreg. cbn [default].
    rewrite lookup_insert_eq.
    rewrite bool_decide_true by eauto. repeat split; try done.
    intros v Hv. by rewrite lookup_insert_ne.
Qed.

(** ** The settings of a resource *)

(** [getDocumentSettings] memoises.  Without configuration requests it
    answers with the global settings and neither asks the client nor
    touches the cache.  With them, a cached entry is returned as it is,
    without a request (so a stale entry is served until the cache is
    cleared); a miss sends one request for the resource, caches the
    client's answer under the resource only and returns it.  In every
    case a second call in a row returns the same settings and sends
    nothing. *)
Theorem getDocumentSettings_memoises `{ext : Externals}
    (resource : string) (s : server.State) :
  let o := server.getDocumentSettings resource s in
  let again := server.getDocumentSettings resource (final o) in
  (completion again = completion o /\ events again = [] /\ final again = final o)
  /\ (server.hasConfigurationCapability s = false ->
        o = {| completion := Normal (server.globalSettings s);
               final := s; events := [] |})
  /\ (forall cached,
        server.hasConfigurationCapability s = true ->
        server.documentSettings s !! resource = Some cached ->
        o = {| completion := Normal cached; final := s; events := [] |})
  /\ (server.hasConfigurationCapability s = true ->
      server.documentSettings s !! resource = None ->
      completion o = Normal (getConfiguration resource "languageServerExample")
      /\ events o = [workspace_getConfiguration resource "languageServerExample"]
      /\ server.documentSettings (final o) !! resource
         = Some (getConfiguration resource "languageServerExample")
      /\ (forall other, other <> resource ->
            server.documentSettings (final o) !! other
            = server.documentSettings s !! other)
      /\ server.collectorMap (final o) = server.collectorMap s).
Proof.
  intros o again. subst o again. rewrite !getDocumentSettings_outcome.
  cbn [completion final events].
  destruct s as [docs sc cm hc hw hr gs ds].
  unfold settingsFor, cacheAfter, fetch.
  cbn [server.hasConfigurationCapability server.documentSettings
       server.globalSettings server.collectorMap server.set_documentSettings].
  destruct hc.
  - destruct (ds !! resource) as [cached|] eqn:Hcache.
    + rewrite Hcache. repeat split; try done.
      intros cached' _ [= <-]. reflexivity.
    + rewrite !lookup_insert_eq. repeat split; try done.
      intros other Hother. by rewrite lookup_insert_ne.
  - repeat split; done.
Qed.

Section MemoiseWitness.
#[local] Existing Instance demo.externals.

Lemma getDocumentSettings_memoises_witness :
  let emptied := server.set_documentSettings ∅ stale_session in
  let o := server.getDocumentSettings "file:///foo.ts" emptied in
  events o = [workspace_getConfiguration "file:///foo.ts" "languageServerExample"]
  /\ events (server.getDocumentSettings "file:///foo.ts" (final o)) = []
  /\ server.getDocumentSettings "file:///foo.ts" stale_session
     = {| completion := Normal {| maxNumberOfProblems := 1;
                                  scanPluginsConf := Some [] |};
          final := stale_session; events := [] |}.
Proof.
  intros emptied o.
  destruct (getDocumentSettings_memoises "file:///foo.ts" emptied)
    as ((_ & Hsilent & _) & _ & _ & Hmiss).
  destruct (getDocumentSettings_memoises "file:///foo.ts" stale_session)
    as (_ & _ & Hhit & _).
  destruct (Hmiss eq_refl eq_refl) as (_ & Hrequest & _).
  split; [exact Hrequest|]. split; [exact Hsilent|].
  apply Hhit; reflexivity.
Defined.
End MemoiseWitness.

(** ** The dialect of a language *)

(** [getPluginByLanguageId] gives the parser plugins of a language: "jsx"
    exactly for the two React languages, "typescript" exactly for the two
    TypeScript ones, "jsx" first when both, nothing else, and nothing at
    all for a language the server does not support.  The copies in the two
    files agree. *)
Theorem dialect_of_language (l : string) :
  let tags := server.getPluginByLanguageId l in
  scannerServer.getPluginByLanguageId l = tags
  /\ ("jsx" ∈ tags <-> l ∈ ["javascriptreact"; "typescriptreact"])
  /\ ("typescript" ∈ tags <-> l ∈ ["typescript"; "typescriptreact"])
  /\ tags = List.filter (fun t => bool_decide (t ∈ tags)) ["jsx"; "typescript"]
  /\ (l ∉ ["javascript"; "typescript"; "javascriptreact"; "typescriptreact"] ->
      tags = []).
Proof.
  intros tags. subst tags.
  unfold server.getPluginByLanguageId, scannerServer.getPluginByLanguageId.
  destruct (String.eqb_spec l "javascript") as [->|Hjs];
    [by repeat split; try compute_done; intros Hin; exfalso;
        revert Hin; compute_done|].
  destruct (String.eqb_spec l "typescript") as [->|Hts];
    [by repeat split; try compute_done; intros Hin; exfalso;
        revert Hin; compute_done|].
  destruct (String.eqb_spec l "javascriptreact") as [->|Hjsr];
    [by repeat split; try compute_done; intros Hin; exfalso;
        revert Hin; compute_done|].
  destruct (String.eqb_spec l "typescriptreact") as [->|Htsr];
    [by repeat split; try compute_done; intros Hin; exfalso;
        revert Hin; compute_done|].
  repeat split; try done.
  - intros Hin. by apply elem_of_nil in Hin.
  - rewrite !elem_of_cons, elem_of_nil. tauto.
  - intros Hin. by apply elem_of_nil in Hin.
  - rewrite !elem_of_cons, elem_of_nil. tauto.
Qed.

(** ** One run, seen from outside *)

Section RunFacts.
Context `{ext : Externals}.

Lemma configuration_requests_fetch s resource :
  configuration_requests (fetch s resource)
  = if server.hasConfigurationCapability s
    then match server.documentSettings s !! resource with
         | Some _ => []
         | None => [resource]
         end
    else [].
Proof.
  unfold fetch. destruct (server.hasConfigurationCapability s); [|reflexivity].
  destruct (server.documentSettings s !! resource); reflexivity.
Qed.

Lemma configuration_requests_caught failure :
  configuration_requests (caught failure) = [].
Proof. destruct failure; reflexivity. Qed.

Lemma validateTextDocument_requests doc s :
  includes server.allLanguageIds (languageId doc) = true ->
  configuration_requests (events (server.validateTextDocument doc s))
  = configuration_requests (fetch s (uri doc)).
Proof.
  intros Hsup. rewrite (validateTextDocument_outcome doc s Hsup). cbn [events].
  rewrite !configuration_requests_app, configuration_requests_caught.
  cbn. by rewrite app_nil_r.
Qed.

Lemma onDidChangeConfiguration_outcome change s :
  server.onDidChangeConfiguration change s
  = after [console_log (LogChange change)]
      (revalidate (server.documents s) (resetOn change s)).
Proof.
  unfold server.onDidChangeConfiguration, resetOn, revalidate.
  destruct s as [docs sc cm hc hw hr gs ds].
  destruct hc;
    cbv beta iota zeta delta
      [bind ret get modify emit after server.hasConfigurationCapability
       server.set_documentSettings server.set_globalSettings
       server.set_collectorMap server.documents server.scanner
       server.collectorMap server.hasWorkspaceFolderCapability
       server.hasDiagnosticRelatedInformationCapability server.globalSettings
       server.documentSettings];
    match goal with
    | |- context [forEach ?ds ?f ?st] => by destruct (forEach ds f st)
    end.
Qed.
End RunFacts.

(** A run of [validateTextDocument] touches one document only: the
    collectors and the cached settings of every other URI are as before,
    a cached entry of the document itself is not overwritten, and the
    capabilities, the global settings and the store of open documents are
    left alone. *)
Theorem run_touches_one_document `{ext : Externals}
    (doc : TextDocument) (s : server.State) :
  let s' := final (server.validateTextDocument doc s) in
  (forall u, u <> uri doc ->
     server.collectorMap s' !! u = server.collectorMap s !! u
     /\ server.documentSettings s' !! u = server.documentSettings s !! u)
  /\ (forall cached,
        server.documentSettings s !! uri doc = Some cached ->
        server.documentSettings s' !! uri doc = Some cached)
  /\ server.hasConfigurationCapability s' = server.hasConfigurationCapability s
  /\ server.hasWorkspaceFolderCapability s' = server.hasWorkspaceFolderCapability s
  /\ server.hasDiagnosticRelatedInformationCapability s'
     = server.hasDiagnosticRelatedInformationCapability s
  /\ server.globalSettings s' = server.globalSettings s
  /\ server.documents s' = server.documents s.
Proof.
  intros s'. subst s'.
  destruct (includes server.allLanguageIds (languageId doc)) eqn:Hsup.
  - rewrite (validateTextDocument_outcome doc s Hsup). cbn [final].
    unfold cacheAfter.
    destruct s as [docs sc cm hc hw hr gs ds].
    cbn [server.hasConfigurationCapability server.globalSettings
         server.documents server.collectorMap server.documentSettings
         server.hasWorkspaceFolderCapability
         server.hasDiagnosticRelatedInformationCapability
         server.set_collectorMap server.set_scanner server.set_documentSettings].
    repeat split; try done.
    + by rewrite lookup_insert_ne.
    + destruct hc; [|done]. destruct (ds !! uri doc); [done|].
      by rewrite lookup_insert_ne.
    + intros cached Hcached. destruct hc; [|done]. by rewrite Hcached.
  - rewrite (validateTextDocument_unsupported doc s Hsup). cbn [final].
    repeat split; done.
Qed.

(** [maxNumberOfProblems] is not consulted: [ScannerServer.validate] does
    the same whatever its value, and so does [validateTextDocument] when
    the global settings are replaced by settings with the same plugin
    list; the number of diagnostics is not capped. *)
Theorem maxNumberOfProblems_is_not_consulted `{ext : Externals}
    (doc : TextDocument) (settings settings' : ISettings) :
  scanPluginsConf settings = scanPluginsConf settings' ->
  (forall st : scannerServer.State,
     scannerServer.validate doc settings st
     = scannerServer.validate doc settings' st)
  /\ (forall s : server.State,
        server.hasConfigurationCapability s = false ->
        events (server.validateTextDocument doc
                  (server.set_globalSettings settings s))
        = events (server.validateTextDocument doc
                    (server.set_globalSettings settings' s))).
Proof.
  intros Hsame. split.
  - intros st. destruct settings as [n conf], settings' as [n' conf'].
    cbn [scanPluginsConf] in Hsame. subst conf'.
    unfold scannerServer.validate. cbn [scanPluginsConf]. reflexivity.
  - intros s Hpush.
    destruct (includes server.allLanguageIds (languageId doc)) eqn:Hsup.
    + rewrite !(validateTextDocument_outcome doc _ Hsup). cbn [events].
      destruct s as [docs sc cm hc hw hr gs ds].
      cbn [server.hasConfigurationCapability] in Hpush. subst hc.
      unfold fetch, settingsFor, engineConfig.
      cbn [server.hasConfigurationCapability server.globalSettings
           server.set_globalSettings
           server.hasDiagnosticRelatedInformationCapability].
      by rewrite Hsame.
    + by rewrite !(validateTextDocument_unsupported doc _ Hsup).
Qed.

Section MaxProblemsWitness.
#[local] Existing Instance demo.externals.

Lemma maxNumberOfProblems_witness :
  let one := {| maxNumberOfProblems := 1; scanPluginsConf := None |} in
  let st := final (scannerServer.bindConnection connection
                     {| scannerServer.collectorMap := ∅;
                        scannerServer.this := scannerServer.constructor None |}) in
  scannerServer.validate (demo.doc "f()") one st
  = scannerServer.validate (demo.doc "f()")
      {| maxNumberOfProblems := 1000; scanPluginsConf := None |} st
  /\ (length <$> (snd <$> published
        (events (scannerServer.validate (demo.doc "f()") one st)) !! 0%nat))
     = Some 5%nat.
Proof.
  intros one st. split; [|reflexivity].
  apply (maxNumberOfProblems_is_not_consulted (demo.doc "f()") one
           {| maxNumberOfProblems := 1000; scanPluginsConf := None |}).
  reflexivity.
Defined.
End MaxProblemsWitness.

(** ** The instance and its connection *)


Section UnboundWitness.
#[local] Existing Instance demo.externals.

End UnboundWitness.

(** ** Closing a document *)

(** With configuration requests, the settings of a closed document are
    fetched again: the next run on the document sends one request for its
    URI and caches the client's answer.  Closing twice is closing once,
    and the order in which two documents are closed does not matter. *)
Theorem closed_document_is_fetched_again `{ext : Externals}
    (doc other : TextDocument) (s : server.State) :
  languageId doc ∈ ["javascript"; "typescript"; "javascriptreact"; "typescriptreact"] ->
  server.hasConfigurationCapability s = true ->
  let closed := final (server.onDidClose doc s) in
  let o := server.validateTextDocument doc closed in
  configuration_requests (events o) = [uri doc]
  /\ server.documentSettings (final o) !! uri doc
     = Some (getConfiguration (uri doc) "languageServerExample")
  /\ final (server.onDidClose doc closed) = closed
  /\ final (server.onDidClose other closed)
     = final (server.onDidClose doc (final (server.onDidClose other s))).
Proof.
  intros Hsup Hpull closed o. apply supported_includes in Hsup as [Hsup _].
  subst o closed.
  rewrite (validateTextDocument_requests doc _ Hsup), configuration_requests_fetch.
  rewrite (validateTextDocument_outcome doc _ Hsup). cbn [final].
  unfold cacheAfter, server.onDidClose.
  destruct s as [docs sc cm hc hw hr gs ds].
  cbn [server.hasConfigurationCapability] in Hpull. subst hc.
  cbv beta iota zeta delta [modify final].
  cbn [server.hasConfigurationCapability server.documentSettings
       server.set_collectorMap server.set_scanner
       server.set_documentSettings server.documents server.scanner
       server.collectorMap server.hasWorkspaceFolderCapability
       server.hasDiagnosticRelatedInformationCapability server.globalSettings].
  rewrite !lookup_delete_eq. repeat split.
  - apply lookup_insert_eq.
  - by rewrite delete_delete_eq.
  - by rewrite delete_delete.
Qed.

Section ClosedWitness.
#[local] Existing Instance demo.externals.

Lemma closed_document_witness :
  let closed := final (server.onDidClose (demo.doc "f()") stale_session) in
  configuration_requests (events (server.validateTextDocument (demo.doc "f()") closed))
  = ["file:///foo.ts"]
  /\ server.documentSettings
       (final (server.validateTextDocument (demo.doc "f()") closed))
     !! "file:///foo.ts"
     = Some {| maxNumberOfProblems := 100; scanPluginsConf := None |}.
Proof.
  intros closed.
  destruct (closed_document_is_fetched_again
              (demo.doc "f()") demo.readme stale_session)
    as (Hrequest & Hcached & _).
  - apply (bool_decide_unpack _). vm_compute. exact I.
  - reflexivity.
  - by split.
Defined.
End ClosedWitness.

(** ** The server over any sequence of messages *)

Section Traces.
Context `{ext : Externals}.

Lemma handle_normal m s : completion (handle m s) = Normal tt.
Proof.
  destruct m as [params|change|document|document| |open]; cbn [handle];
    try reflexivity.
  - rewrite onDidChangeConfiguration_outcome, completion_after.
    apply revalidate_normal.
  - unfold server.onDidChangeContent. rewrite floating_validate.
    apply validateTextDocument_normal.
Qed.

Lemma serve_cons m ms s :
  serve (m :: ms) s
  = after (events (handle m s)) (serve ms (final (handle m s))).
Proof.
  unfold serve. cbn [forEach]. unfold bind.
  pose proof (handle_normal m s) as Hn.
  destruct (handle m s) as [c s' evs]. cbn [completion] in Hn. subst c.
  reflexivity.
Qed.

Lemma serve_normal ms s : completion (serve ms s) = Normal tt.
Proof.
  revert s. induction ms as [|m ms IH]; intros s; [reflexivity|].
  rewrite serve_cons, completion_after. apply IH.
Qed.

(** How a property [I] of the state and a property [Q] of the events go
    from one run to every sequence of messages that are [allowed]. *)
Section Invariant.
Variable I : server.State -> Prop.
Variable Q : list Event -> Prop.
Variable allowed : Message -> Prop.
Hypothesis Q_nil : Q [].
Hypothesis Q_app : forall a b, Q a -> Q b -> Q (a ++ b).
Hypothesis Q_log : forall m, Q [console_log m].
Hypothesis run_keeps :
  forall d s, I s ->
    I (final (server.validateTextDocument d s))
    /\ Q (events (server.validateTextDocument d s)).
Hypothesis initialize_keeps :
  forall params s, allowed (initialize params) -> I s ->
    I (final (server.onInitialize params s)).
Hypothesis reset_keeps : forall change s, I s -> I (resetOn change s).
Hypothesis close_keeps :
  forall d s, I s -> I (final (server.onDidClose d s)).
Hypothesis store_keeps : forall open s, I s -> I (set_documents open s).

Lemma revalidate_keeps docs s :
  I s -> I (final (revalidate docs s)) /\ Q (events (revalidate docs s)).
Proof.
  revert s. induction docs as [|d docs IH]; intros s Hs.
  - by split.
  - rewrite revalidate_cons, final_after, events_after.
    destruct (run_keeps d s Hs) as [Hs' Hq].
    destruct (IH _ Hs') as [Hs'' Hq']. split; [done|by apply Q_app].
Qed.

Lemma handle_keeps m s :
  allowed m -> I s -> I (final (handle m s)) /\ Q (events (handle m s)).
Proof.
  intros Hm Hs.
  destruct m as [params|change|document|document| |open]; cbn [handle].
  - split; [by apply initialize_keeps|exact Q_nil].
  - rewrite onDidChangeConfiguration_outcome, final_after, events_after.
    destruct (revalidate_keeps (server.documents s) (resetOn change s))
      as [Hs' Hq]; [by apply reset_keeps|].
    split; [done|]. apply Q_app; [apply Q_log|done].
  - unfold server.onDidChangeContent. rewrite floating_validate.
    by apply run_keeps.
  - split; [by apply close_keeps|exact Q_nil].
  - split; [done|apply Q_log].
  - split; [by apply store_keeps|exact Q_nil].
Qed.

Lemma serve_keeps ms s :
  Forall allowed ms -> I s ->
  I (final (serve ms s)) /\ Q (events (serve ms s)).
Proof.
  intros Hms. revert s. induction Hms as [|m ms Hm Hms IH]; intros s Hs.
  - by split.
  - rewrite serve_cons, final_after, events_after.
    destruct (handle_keeps m s Hm Hs) as [Hs' Hq].
    destruct (IH _ Hs') as [Hs'' Hq']. split; [done|by apply Q_app].
Qed.
End Invariant.

Lemma diagnosticFor_shaped allow doc error :
  shaped (uri doc) (diagnosticFor allow doc error).
Proof.
  unfold shaped, diagnosticFor. cbn [source relatedInformation d_range].
  split; [reflexivity|].
  destruct allow; [|by left].
  destruct (extraMsg error) as [[|c msg]|]; cbn; [by left| |by left].
  right. exists (String c msg). by split.
Qed.

Lemma run_touches_one_document_frame d s :
  server.hasConfigurationCapability (final (server.validateTextDocument d s))
  = server.hasConfigurationCapability s
  /\ server.hasWorkspaceFolderCapability (final (server.validateTextDocument d s))
     = server.hasWorkspaceFolderCapability s
  /\ server.hasDiagnosticRelatedInformationCapability
       (final (server.validateTextDocument d s))
     = server.hasDiagnosticRelatedInformationCapability s.
Proof.
  destruct (includes server.allLanguageIds (languageId d)) eqn:Hsup.
  - rewrite (validateTextDocument_outcome d s Hsup). by destruct s.
  - by rewrite (validateTextDocument_unsupported d s Hsup).
Qed.

Lemma diagnosticFor_plain doc error :
  relatedInformation (diagnosticFor false doc error) = None.
Proof. reflexivity. Qed.
End Traces.

(** Over any sequence of messages, every run of the engine starts from an
    empty collector, the one registered under the file it scans, and the
    publications are, in order, one per run of the engine and for the file
    of that run: nothing is published without a scan, and no scan goes
    unpublished. *)
Theorem every_engine_run_is_clean_and_published `{ext : Externals}
    (ms : list Message) (s : server.State) :
  let evs := events (serve ms s) in
  Forall clean_call (engine_calls evs)
  /\ map fst (published evs) = map (fun call => filePath (fst call)) (engine_calls evs).
Proof.
  intros evs. subst evs.
  apply (serve_keeps (fun _ => True)
           (fun evs =>
              Forall clean_call (engine_calls evs)
              /\ map fst (published evs)
                 = map (fun call => filePath (fst call)) (engine_calls evs))
           (fun _ => True)).
  - by split.
  - intros a b [Ha Ha'] [Hb Hb']. rewrite engine_calls_app, published_app.
    split; [by apply Forall_app|]. by rewrite !map_app, Ha', Hb'.
  - intros m. by split.
  - intros d s0 _. split; [done|].
    destruct (includes server.allLanguageIds (languageId d)) eqn:Hsup.
    + rewrite (validateTextDocument_engine_calls d s0 Hsup),
        (validateTextDocument_published d s0 Hsup).
      split; [|reflexivity]. constructor; [|constructor]. by split.
    + rewrite (validateTextDocument_unsupported d s0 Hsup). by split.
  - done.
  - done.
  - done.
  - done.
  - by apply Forall_true.
  - done.
Qed.

(** Over any sequence of messages, a collector that is registered stays
    registered: the registry only grows (closing a document, changing the
    configuration or initialising again removes none). *)
Theorem registry_never_loses_a_collector `{ext : Externals}
    (ms : list Message) (s : server.State) (u : string) :
  is_Some (server.collectorMap s !! u) ->
  is_Some (server.collectorMap (final (serve ms s)) !! u).
Proof.
  intros Hu.
  apply (serve_keeps (fun s0 => is_Some (server.collectorMap s0 !! u))
           (fun _ => True) (fun _ => True)).
  - done.
  - done.
  - done.
  - intros d s0 Hs0. split; [|done].
    destruct (includes server.allLanguageIds (languageId d)) eqn:Hsup.
    + rewrite (validateTextDocument_outcome d s0 Hsup). cbn [final].
      destruct s0 as [docs sc cm hc hw hr gs ds].
      cbn [server.collectorMap server.set_collectorMap] in *.
      rewrite lookup_insert. case_decide; [by eexists|done].
    + by rewrite (validateTextDocument_unsupported d s0 Hsup).
  - intros params s0 _ Hs0. by destruct s0.
  - intros change s0 Hs0. unfold resetOn.
    destruct s0 as [docs sc cm hc hw hr gs ds].
    cbn [server.collectorMap server.set_collectorMap] in *.
    rewrite lookup_fmap. destruct Hs0 as [c Hc].
    unfold ErrorCollector in *. rewrite Hc. by eexists.
  - intros d s0 Hs0. by destruct s0.
  - intros open s0 Hs0. by destruct s0.
  - by apply Forall_true.
  - exact Hu.
Qed.

Section RegistryWitness.
#[local] Existing Instance demo.externals.

Lemma registry_never_loses_witness :
  is_Some
    (server.collectorMap
       (final (serve [didClose (demo.doc "f()");
                      didChangeConfiguration
                        {| settings := {| languageServerExample := None |} |};
                      store []]
                 stale_session))
     !! "file:///gone.ts").
Proof.
  apply (registry_never_loses_a_collector _ stale_session "file:///gone.ts").
  by eexists.
Defined.
End RegistryWitness.

(** The three capabilities are set by [initialize] and by nothing else:
    over any sequence of messages without an [initialize], they are as
    they were.  In particular, when the related-information capability is
    not negotiated, no diagnostic published in such a sequence carries
    related information. *)
Theorem capabilities_change_only_on_initialize `{ext : Externals}
    (ms : list Message) (s : server.State) :
  Forall (fun m => forall params, m <> initialize params) ms ->
  let s' := final (serve ms s) in
  (server.hasConfigurationCapability s' = server.hasConfigurationCapability s
   /\ server.hasWorkspaceFolderCapability s' = server.hasWorkspaceFolderCapability s
   /\ server.hasDiagnosticRelatedInformationCapability s'
      = server.hasDiagnosticRelatedInformationCapability s)
  /\ (server.hasDiagnosticRelatedInformationCapability s = false ->
      Forall (fun publication =>
                Forall (fun d => relatedInformation d = None) (snd publication))
        (published (events (serve ms s)))).
Proof.
  intros Hms s'. subst s'. split.
  - apply (serve_keeps
             (fun s0 =>
                server.hasConfigurationCapability s0
                = server.hasConfigurationCapability s
                /\ server.hasWorkspaceFolderCapability s0
                   = server.hasWorkspaceFolderCapability s
                /\ server.hasDiagnosticRelatedInformationCapability s0
                   = server.hasDiagnosticRelatedInformationCapability s)
             (fun _ => True)
             (fun m => forall params, m <> initialize params)).
    + done.
    + done.
    + done.
    + intros d s0 Hs0. split; [|done].
      destruct (run_touches_one_document_frame d s0) as (Hc & Hw & Hr).
      by rewrite Hc, Hw, Hr.
    + intros params s0 Hno. by destruct (Hno params).
    + intros change s0 Hs0. unfold resetOn.
      destruct s0 as [docs sc cm [] hw hr gs ds]; exact Hs0.
    + intros d s0 Hs0. by destruct s0.
    + intros open s0 Hs0. by destruct s0.
    + exact Hms.
    + done.
  - intros Hoff.
    apply (serve_keeps
             (fun s0 => server.hasDiagnosticRelatedInformationCapability s0 = false)
             (fun evs =>
                Forall (fun publication =>
                          Forall (fun d => relatedInformation d = None)
                            (snd publication))
                  (published evs))
             (fun m => forall params, m <> initialize params)).
    + constructor.
    + intros a b Ha Hb. rewrite published_app. by apply Forall_app.
    + intros m. constructor.
    + intros d s0 Hs0.
      destruct (run_touches_one_document_frame d s0) as (_ & _ & Hr).
      split; [by rewrite Hr|].
      destruct (includes server.allLanguageIds (languageId d)) eqn:Hsup.
      * rewrite (validateTextDocument_published d s0 Hsup), Hs0.
        constructor; [|constructor]. cbn [snd].
        apply Forall_map, Forall_true. intros error. reflexivity.
      * rewrite (validateTextDocument_unsupported d s0 Hsup). constructor.
    + intros params s0 Hno. by destruct (Hno params).
    + intros change s0 Hs0. unfold resetOn.
      destruct s0 as [docs sc cm [] hw hr gs ds]; exact Hs0.
    + intros d s0 Hs0. by destruct s0.
    + intros open s0 Hs0. by destruct s0.
    + exact Hms.
    + exact Hoff.
Qed.

Section CapabilitiesWitness.
#[local] Existing Instance demo.externals.

Lemma capabilities_witness :
  Forall (fun publication =>
            Forall (fun d => relatedInformation d = None) (snd publication))
    (published
       (events (serve [store [demo.doc "f()"];
                       didChangeContent (demo.doc "f()");
                       didChangeConfiguration
                         {| settings := {| languageServerExample := None |} |};
                       didClose (demo.doc "f()")]
                  server.initial))).
Proof.
  apply (capabilities_change_only_on_initialize _ server.initial).
  - repeat constructor; intros params; discriminate.
  - reflexivity.
Defined.
End CapabilitiesWitness.

(** Without configuration requests the server never asks the client for
    settings and never adds to the settings cache, whatever messages
    follow (short of a new [initialize]). *)
Theorem push_mode_never_asks_the_client `{ext : Externals}
    (ms : list Message) (s : server.State) :
  Forall (fun m => forall params, m <> initialize params) ms ->
  server.hasConfigurationCapability s = false ->
  configuration_requests (events (serve ms s)) = []
  /\ server.documentSettings (final (serve ms s)) ⊆ server.documentSettings s.
Proof.
  intros Hms Hpush.
  destruct (serve_keeps
              (fun s0 => server.hasConfigurationCapability s0 = false
                         /\ server.documentSettings s0 ⊆ server.documentSettings s)
              (fun evs => configuration_requests evs = [])
              (fun m => forall params, m <> initialize params)) with (ms := ms) (s := s)
    as [[_ Hsub] Hnone].
  - reflexivity.
  - intros a b Ha Hb. by rewrite configuration_requests_app, Ha, Hb.
  - reflexivity.
  - intros d s0 [Hs0 Hsub].
    destruct (includes server.allLanguageIds (languageId d)) eqn:Hsup.
    + rewrite (validateTextDocument_requests d s0 Hsup),
        configuration_requests_fetch, Hs0.
      rewrite (validateTextDocument_outcome d s0 Hsup). cbn [final].
      unfold cacheAfter. rewrite Hs0. by destruct s0.
    + by rewrite (validateTextDocument_unsupported d s0 Hsup).
  - intros params s0 Hno. by destruct (Hno params).
  - intros change s0 [Hs0 Hsub]. unfold resetOn. rewrite Hs0. by destruct s0.
  - intros d s0 [Hs0 Hsub]. destruct s0 as [docs sc cm hc hw hr gs ds].
    split; [exact Hs0|]. cbn in *. etrans; [apply delete_subseteq|exact Hsub].
  - intros open s0 Hs0. by destruct s0.
  - exact Hms.
  - by split.
  - by split.
Qed.

Section PushModeWitness.
#[local] Existing Instance demo.externals.

Lemma push_mode_witness :
  configuration_requests
    (events (serve [store [demo.doc "f()"];
                    didChangeContent (demo.doc "f()");
                    didChangeConfiguration
                      {| settings := {| languageServerExample := None |} |}]
               server.initial))
  = [].
Proof.
  apply (push_mode_never_asks_the_client _ server.initial).
  - repeat constructor; intros params; discriminate.
  - reflexivity.
Defined.
End PushModeWitness.

(** Over any sequence of messages, every diagnostic the server publishes
    has the source "code-scanner", and its related information is either
    absent or one entry, with a non-empty message, about the range of the
    diagnostic itself in the document the publication is for. *)
Theorem published_diagnostics_are_shaped `{ext : Externals}
    (ms : list Message) (s : server.State) :
  Forall (fun publication => Forall (shaped (fst publication)) (snd publication))
    (published (events (serve ms s))).
Proof.
  apply (serve_keeps (fun _ => True)
           (fun evs =>
              Forall (fun publication =>
                        Forall (shaped (fst publication)) (snd publication))
                (published evs))
           (fun _ => True)).
  - constructor.
  - intros a b Ha Hb. rewrite published_app. by apply Forall_app.
  - intros m. constructor.
  - intros d s0 _. split; [done|].
    destruct (includes server.allLanguageIds (languageId d)) eqn:Hsup.
    + rewrite (validateTextDocument_published d s0 Hsup).
      constructor; [|constructor]. cbn [fst snd].
      apply Forall_map, Forall_true. intros error. apply diagnosticFor_shaped.
    + rewrite (validateTextDocument_unsupported d s0 Hsup). constructor.
  - done.
  - done.
  - done.
  - done.
  - by apply Forall_true.
  - done.
Qed.

(** ** Initialisation *)

(** [initialize] decides how settings are read and touches nothing else:
    the registry, the cache, the global settings, the scanner and the
    store are as before.  Afterwards, the first run on a document whose
    settings are not cached asks the client for them exactly when the
    client announced [workspace.configuration] as [true]. *)
Theorem initialize_decides_how_settings_are_read `{ext : Externals}
    (params : InitializeParams) (s : server.State) (doc : TextDocument) :
  languageId doc ∈ ["javascript"; "typescript"; "javascriptreact"; "typescriptreact"] ->
  server.documentSettings s !! uri doc = None ->
  let s' := final (server.onInitialize params s) in
  let announced :=
    match workspace (capabilities params) with
    | Some w => bool_decide (configuration w = Some true)
    | None => false
    end in
  configuration_requests (events (server.validateTextDocument doc s'))
  = (if announced then [uri doc] else [])
  /\ events (server.onInitialize params s) = []
  /\ server.collectorMap s' = server.collectorMap s
  /\ server.documentSettings s' = server.documentSettings s
  /\ server.globalSettings s' = server.globalSettings s
  /\ server.scanner s' = server.scanner s
  /\ server.documents s' = server.documents s.
Proof.
  intros Hsup Hmiss s' announced. apply supported_includes in Hsup as [Hsup _].
  subst s' announced.
  rewrite (validateTextDocument_requests doc _ Hsup), configuration_requests_fetch.
  destruct s as [docs sc cm hc hw hr gs ds].
  cbn [server.documentSettings] in Hmiss.
  unfold server.onInitialize.
  cbv beta iota zeta delta [modify final events].
  cbn [server.set_capabilities server.hasConfigurationCapability
       server.documentSettings server.collectorMap server.globalSettings
       server.scanner server.documents].
  rewrite Hmiss. repeat split.
  destruct (workspace (capabilities params)) as [w|]; [|reflexivity].
  destruct (configuration w) as [[]|]; reflexivity.
Qed.

Section InitializeWitness.
#[local] Existing Instance demo.externals.

Lemma initialize_witness :
  let pull :=
    {| capabilities :=
         {| workspace := Some {| configuration := Some true;
                                 workspaceFolders := None |};
            textDocument := None |} |} in
  configuration_requests
    (events (server.validateTextDocument (demo.doc "f()")
               (final (server.onInitialize pull server.initial))))
  = ["file:///foo.ts"].
Proof.
  intros pull.
  destruct (initialize_decides_how_settings_are_read pull server.initial
              (demo.doc "f()")) as [Hrequests _].
  - apply (bool_decide_unpack _). vm_compute. exact I.
  - reflexivity.
  - exact Hrequests.
Defined.
End InitializeWitness.

(** ** More on single runs *)

(** What a run of [validateTextDocument] sends does not depend on what the
    collectors held or on how the scanner was configured before: only the
    document, the settings and the capabilities count.  Findings of an
    earlier run never show up again. *)
Theorem run_ignores_earlier_findings `{ext : Externals}
    (doc : TextDocument) (s : server.State)
    (cm : gmap string ErrorCollector) (sc : Scanner) :
  let s0 := server.set_collectorMap cm (server.set_scanner sc s) in
  events (server.validateTextDocument doc s0)
  = events (server.validateTextDocument doc s)
  /\ (languageId doc
        ∈ ["javascript"; "typescript"; "javascriptreact"; "typescriptreact"] ->
      server.collectorMap (final (server.validateTextDocument doc s0)) !! uri doc
      = server.collectorMap (final (server.validateTextDocument doc s)) !! uri doc).
Proof.
  intros s0. subst s0.
  destruct (includes server.allLanguageIds (languageId doc)) eqn:Hsup.
  - rewrite !(validateTextDocument_outcome doc _ Hsup). cbn [events final].
    destruct s as [docs sc0 cm0 hc hw hr gs ds].
    unfold settingsFor, fetch.
    cbn [server.hasConfigurationCapability server.globalSettings
         server.documentSettings server.collectorMap
         server.hasDiagnosticRelatedInformationCapability
         server.set_collectorMap server.set_scanner server.set_documentSettings].
    split; [reflexivity|]. intros _. by rewrite !lookup_insert_eq.
  - rewrite !(validateTextDocument_unsupported doc _ Hsup). split; [done|].
    intros Hin. apply supported_includes in Hin as [Hin _]. congruence.
Qed.


Section InstanceRunWitness.
#[local] Existing Instance demo.externals.

End InstanceRunWitness.

(** No run of [ScannerServer.validate], whether it completes or fails,
    changes the connection or the flag of the instance, or a collector
    other than the one of the document. *)
Theorem instance_run_keeps_connection_and_flag `{ext : Externals}
    (doc : TextDocument) (settings : ISettings) (st : scannerServer.State) :
  let st' := final (scannerServer.validate doc settings st) in
  scannerServer._connection (scannerServer.this st')
  = scannerServer._connection (scannerServer.this st)
  /\ scannerServer._allowRelatedInformation (scannerServer.this st')
     = scannerServer._allowRelatedInformation (scannerServer.this st)
  /\ (forall u, u <> uri doc ->
        scannerServer.collectorMap st' !! u = scannerServer.collectorMap st !! u).
Proof.
  intros st'. subst st'.
  destruct (includes scannerServer.allLanguageIds (languageId doc)) eqn:Hsup.
  - destruct (scannerServer._connection (scannerServer.this st)) as [[]|] eqn:Hconn.
    + rewrite (validate_outcome doc settings st Hsup Hconn).
      cbn [final scannerServer.this scannerServer._connection
           scannerServer._allowRelatedInformation scannerServer.collectorMap].
      repeat split. intros u Hu. by rewrite lookup_insert_ne.
    + rewrite (validate_unbound doc settings st Hsup Hconn).
      cbn [final scannerServer.this scannerServer.collectorMap].
      repeat split; [done|]. intros u Hu. by rewrite lookup_insert_ne.
  - rewrite (validate_unsupported doc settings st Hsup). by repeat split.
Qed.

(** With configuration requests, a change of configuration does not read
    what the notification carries: two notifications lead to the same
    state and to the same events after the line that logs them. *)
Theorem pull_change_ignores_payload `{ext : Externals}
    (change change' : DidChangeConfigurationParams) (s : server.State) :
  server.hasConfigurationCapability s = true ->
  final (server.onDidChangeConfiguration change s)
  = final (server.onDidChangeConfiguration change' s)
  /\ exists rest,
       events (server.onDidChangeConfiguration change s)
       = console_log (LogChange change) :: rest
       /\ events (server.onDidChangeConfiguration change' s)
          = console_log (LogChange change') :: rest.
Proof.
  intros Hpull. rewrite !onDidChangeConfiguration_outcome.
  rewrite !final_after, !events_after.
  assert (Hreset : resetOn change s = resetOn change' s).
  { unfold resetOn. by rewrite Hpull. }
  rewrite Hreset. split; [reflexivity|].
  by exists (events (revalidate (server.documents s) (resetOn change' s))).
Qed.

Section PullChangeWitness.
#[local] Existing Instance demo.externals.

Lemma pull_change_witness :
  final (server.onDidChangeConfiguration
           {| settings := {| languageServerExample := None |} |} stale_session)
  = final (server.onDidChangeConfiguration
             {| settings :=
                  {| languageServerExample :=
                       Some {| maxNumberOfProblems := 3;
                               scanPluginsConf := Some [] |} |} |}
             stale_session).
Proof.
  apply (pull_change_ignores_payload _ _ stale_session). reflexivity.
Defined.
End PullChangeWitness.

(** * The server with its suspension point: properties *)

(** ** The two halves of a run, spelled out *)

Section AsyncRun.
Context `{ext : Externals}.
Import async.

Ltac run_async :=
  cbv beta iota zeta delta
    [bind ret get modify emit throw try_catch after completion final events
     collectors with_collectors the_scanner with_scanner State_heap
     set_objects set_allocated set_documents set_scanner set_collectorMap
     set_globalSettings set_promises set_documentSettings set_suspended
     set_capabilities
     objects allocated documents scanner collectorMap
     hasConfigurationCapability hasWorkspaceFolderCapability
     hasDiagnosticRelatedInformationCapability globalSettings promises
     documentSettings suspended config attached scanPluginsConf_].

Lemma async_getCollectorByUrl_outcome (u : string) (s : State) :
  getCollectorByUrl u s =
  {| completion := Normal u;
     final := set_collectorMap
                (if bool_decide (is_Some (collectorMap s !! u))
                 then collectorMap s
                 else <[u := []]> (collectorMap s)) s;
     events := [] |}.
Proof.
  unfold getCollectorByUrl. destruct s. run_async.
  case_bool_decide; reflexivity.
Qed.

(** A run that resumes with a settings object. *)
Lemma resumed_with_settings (ref : nat) (settings : ISettings) (s : State) :
  let doc := objects s ref in
  let cfg := engineConfig doc settings in
  let result := scanner_run cfg [] in
  validateTextDocument_resumed ref (fulfilled (Some settings)) s =
  {| completion := Normal tt;
     final :=
       set_collectorMap (<[uri doc := fst result]> (collectorMap s))
         (set_scanner {| config := Some cfg |} s);
     events :=
       [console_log (LogText (uri doc));
        console_log (LogPathOf (uri doc));
        console_log (LogVersion (version doc));
        scanner_run_call cfg []]
       ++ caught (snd result)
       ++ [sendDiagnostics (uri doc)
             (Map_forEach (fst result)
                (server.diagnosticOf
                   (hasDiagnosticRelatedInformationCapability s) doc) []);
           sendRequest "request" "send request";
           sendNotification "notification" "send notification"] |}.
Proof.
  intros doc cfg result. unfold validateTextDocument_resumed.
  unfold bind at 1, get at 1. cbn [completion final events after].
  rewrite (bind_after _ _ _ _ _ _ (async_getCollectorByUrl_outcome _ _)).
  subst result cfg doc. unfold engineConfig.
  generalize (objects s ref). intros doc.
  destruct s as [obj al docs sc cm hc hw hr gs ps ds su].
  unfold ErrorCollector_clearAll, ErrorCollector_getCodeErrors,
    Scanner_setConfig, Scanner_run, genScanPluginsConf.
  run_async. rewrite clear_created, !lookup_insert_eq. cbn [default].
  destruct (scanner_run _ _) as [left [e|]]; cbn [fst snd caught];
    run_async;
    rewrite ?lookup_insert_eq, ?insert_insert_eq; cbn [default];
    rewrite ?app_nil_r; cbn [app]; reflexivity.
Qed.

(** A run that resumes with [null] for settings. *)
Lemma resumed_with_null (ref : nat) (s : State) :
  validateTextDocument_resumed ref (fulfilled None) s =
  {| completion := Throw (TypeError "Cannot read properties of null");
     final := set_collectorMap
                (<[uri (objects s ref) := []]> (collectorMap s)) s;
     events := [] |}.
Proof.
  unfold validateTextDocument_resumed.
  unfold bind at 1, get at 1. cbn [completion final events after].
  rewrite (bind_after _ _ _ _ _ _ (async_getCollectorByUrl_outcome _ _)).
  generalize (objects s ref). intros doc.
  destruct s as [obj al docs sc cm hc hw hr gs ps ds su].
  unfold ErrorCollector_clearAll.
  run_async. rewrite clear_created. reflexivity.
Qed.

(** A run whose request failed. *)
Lemma resumed_with_rejection (ref : nat) (reason : Exception) (s : State) :
  validateTextDocument_resumed ref (rejected reason) s =
  {| completion := Throw reason; final := s; events := [] |}.
Proof. reflexivity. Qed.

Lemma async_getDocumentSettings_outcome (resource : string) (s : State) :
  getDocumentSettings resource s =
  {| completion := Normal (awaitedFor s resource);
     final := requested s resource;
     events := request s resource |}.
Proof.
  unfold getDocumentSettings, awaitedFor, requested, request.
  destruct s as [obj al docs sc cm hc hw hr gs ps ds su].
  run_async. destruct hc; cbn [negb]; [|reflexivity].
  destruct (ds !! resource) as [p|]; reflexivity.
Qed.

Lemma called_supported (ref : nat) (s : State) :
  includes server.allLanguageIds (languageId (objects s ref)) = true ->
  validateTextDocument ref s =
  {| completion := Normal tt;
     final := set_suspended
                (suspended s ++ [(ref, awaitedFor s (uri (objects s ref)))])
                (requested s (uri (objects s ref)));
     events := request s (uri (objects s ref)) |}.
Proof.
  intros Hsup. unfold validateTextDocument.
  unfold bind at 1, get at 1. cbn [completion final events after].
  rewrite Hsup. cbn [negb].
  rewrite (bind_after _ _ _ _ _ _ (async_getDocumentSettings_outcome _ _)).
  unfold modify, after, awaitedFor, requested, request.
  destruct s as [obj al docs sc cm hc hw hr gs ps ds su].
  cbn [hasConfigurationCapability documentSettings objects].
  destruct hc; [destruct (ds !! uri (obj ref))|];
    cbn [suspended set_documentSettings set_promises set_suspended];
    rewrite ?app_nil_r; reflexivity.
Qed.

Lemma called_unsupported (ref : nat) (s : State) :
  includes server.allLanguageIds (languageId (objects s ref)) = false ->
  validateTextDocument ref s
  = {| completion := Normal tt; final := s; events := [] |}.
Proof.
  intros Hout. unfold validateTextDocument.
  unfold bind at 1, get at 1. cbn [completion final events after].
  by rewrite Hout.
Qed.
End AsyncRun.

(** ** The event loop, step by step *)

Section AsyncLoop.
Context `{ext : Externals}.
Import async.

Lemma same_session_refl s : same_session s s.
Proof. by repeat split. Qed.

Lemma same_session_trans s1 s2 s3 :
  same_session s1 s2 -> same_session s2 s3 -> same_session s1 s3.
Proof.
  intros (H1 & H2 & H3 & H4 & H5 & H6) (K1 & K2 & K3 & K4 & K5 & K6).
  repeat split; congruence.
Qed.

Lemma called_normal ref s : completion (validateTextDocument ref s) = Normal tt.
Proof.
  destruct (includes server.allLanguageIds (languageId (objects s ref))) eqn:Hsup.
  - by rewrite (called_supported ref s Hsup).
  - by rewrite (called_unsupported ref s Hsup).
Qed.

Lemma called_same_session ref s :
  same_session s (final (validateTextDocument ref s))
  /\ collectorMap (final (validateTextDocument ref s)) = collectorMap s.
Proof.
  destruct (includes server.allLanguageIds (languageId (objects s ref))) eqn:Hsup.
  - rewrite (called_supported ref s Hsup). cbn [final]. unfold requested.
    destruct s as [obj al docs sc cm hc hw hr gs ps ds su].
    cbn [hasConfigurationCapability documentSettings objects promises].
    destruct hc; [destruct (ds !! uri (obj ref))|]; by repeat split.
  - rewrite (called_unsupported ref s Hsup). split; [apply same_session_refl|done].
Qed.

Lemma resumed_same_session ref settled s :
  let s' := final (validateTextDocument_resumed ref settled s) in
  same_session s s'
  /\ promises s' = promises s
  /\ documentSettings s' = documentSettings s
  /\ suspended s' = suspended s.
Proof.
  destruct settled as [[settings|]|reason].
  - rewrite resumed_with_settings. by destruct s.
  - rewrite resumed_with_null. by destruct s.
  - rewrite resumed_with_rejection. by destruct s.
Qed.

Lemma floating_outcome (m : M State unit) s :
  floating m s =
  {| completion := Normal tt; final := final (m s); events := events (m s) |}.
Proof.
  unfold floating, try_catch. destruct (m s) as [[[]|e] s' evs]; cbn;
    by rewrite ?app_nil_r.
Qed.

Lemma resumption_cons run runs s :
  resumption (run :: runs) s
  = after (events (validateTextDocument_resumed (fst run) (snd run) s))
      (resumption runs
         (final (validateTextDocument_resumed (fst run) (snd run) s))).
Proof.
  unfold resumption. cbn [forEach]. unfold bind. by rewrite floating_outcome.
Qed.

Lemma resumption_same_session runs s :
  completion (resumption runs s) = Normal tt
  /\ same_session s (final (resumption runs s))
  /\ promises (final (resumption runs s)) = promises s
  /\ documentSettings (final (resumption runs s)) = documentSettings s
  /\ suspended (final (resumption runs s)) = suspended s.
Proof.
  revert s. induction runs as [|run runs IH]; intros s.
  - split; [done|]. split; [apply same_session_refl|done].
  - rewrite resumption_cons, completion_after, final_after.
    destruct (resumed_same_session (fst run) (snd run) s) as (Hs & Hp & Hd & Hu).
    destruct (IH (final (validateTextDocument_resumed (fst run) (snd run) s)))
      as (Hn & Hs' & Hp' & Hd' & Hu').
    split; [done|]. split; [by eapply same_session_trans|].
    by rewrite Hp', Hd', Hu'.
Qed.

Lemma after_nil {St A} (o : Outcome St A) : after [] o = o.
Proof. by destruct o. Qed.

Lemma resume_outcome s :
  resume s
  = resumption (ready s (suspended s))
      (set_suspended (waiting s (suspended s)) s).
Proof.
  unfold resume, resumption.
  cbv beta iota delta [bind get modify]. by rewrite !after_nil.
Qed.

Lemma resume_same_session s :
  completion (resume s) = Normal tt
  /\ same_session s (final (resume s))
  /\ promises (final (resume s)) = promises s
  /\ documentSettings (final (resume s)) = documentSettings s.
Proof.
  rewrite resume_outcome.
  destruct (resumption_same_session (ready s (suspended s))
              (set_suspended (waiting s (suspended s)) s))
    as (Hn & Hs & Hp & Hd & _).
  split; [done|]. split; [|split].
  - eapply same_session_trans; [|exact Hs]. by destruct s.
  - rewrite Hp. by destruct s.
  - rewrite Hd. by destruct s.
Qed.

Lemma handle_outcome m s :
  handle m s
  = after (events (dispatch m s)) (resume (final (dispatch m s))).
Proof. unfold handle, bind. by rewrite floating_outcome. Qed.

(** With nothing suspended, a resume does nothing. *)
Lemma resume_idle s :
  suspended s = [] ->
  resume s = {| completion := Normal tt; final := s; events := [] |}.
Proof.
  intros Hidle. rewrite resume_outcome, Hidle. cbn [ready waiting].
  unfold resumption. cbn [forEach]. unfold ret. f_equal.
  destruct s. cbn in Hidle. by subst.
Qed.

(** The null payload, without configuration requests. *)
Lemma null_payload_outcome change s :
  hasConfigurationCapability s = false ->
  settings change = None ->
  onDidChangeConfiguration change s
  = {| completion := Throw (TypeError "Cannot read properties of null");
       final := s;
       events := [console_log (LogText null_change)] |}.
Proof.
  intros Hpush Hnull. unfold onDidChangeConfiguration, stringify.
  rewrite Hnull. destruct s as [obj al docs sc cm hc hw hr gs ps ds su].
  cbn [hasConfigurationCapability] in Hpush. subst hc. reflexivity.
Qed.
End AsyncLoop.

Section AsyncPush.
Context `{ext : Externals}.
Import async.

(** Without configuration requests, and with no run left suspended, a
    change of content is one whole run on the global settings. *)
Lemma push_run_outcome ref s :
  hasConfigurationCapability s = false ->
  suspended s = [] ->
  includes server.allLanguageIds (languageId (objects s ref)) = true ->
  handle (didChangeContent ref) s
  = validateTextDocument_resumed ref (fulfilled (Some (globalSettings s))) s.
Proof.
  intros Hpush Hidle Hsup. rewrite handle_outcome. cbn [dispatch].
  unfold onDidChangeContent. rewrite (called_supported ref s Hsup).
  cbn [final events]. unfold awaitedFor, requested, request.
  rewrite Hpush, Hidle. rewrite after_nil, resume_outcome.
  destruct s as [obj al docs sc cm hc hw hr gs ps ds su].
  cbn [suspended] in Hidle. subst su.
  cbn [suspended set_suspended app ready waiting settlement objects allocated
       documents scanner collectorMap hasConfigurationCapability
       hasWorkspaceFolderCapability hasDiagnosticRelatedInformationCapability
       globalSettings promises documentSettings].
  rewrite resumption_cons. cbn [fst snd].
  unfold resumption. cbn [forEach]. unfold ret, after.
  rewrite !resumed_with_settings. cbn [events final].
  by rewrite app_nil_r.
Qed.
End AsyncPush.

(** ** What the two halves of a run let the outside see *)

Section AsyncFacts.
Context `{ext : Externals}.
Import async.

Lemma request_observed s u :
  published (request s u) = []
  /\ engine_calls (request s u) = []
  /\ (hasConfigurationCapability s = false -> request s u = []).
Proof.
  unfold request. destruct (hasConfigurationCapability s); [|done].
  destruct (documentSettings s !! u); by repeat split.
Qed.

(** A call sends at most the configuration request. *)
Lemma called_observed ref s :
  published (events (validateTextDocument ref s)) = []
  /\ engine_calls (events (validateTextDocument ref s)) = []
  /\ (hasConfigurationCapability s = false ->
      events (validateTextDocument ref s) = []).
Proof.
  destruct (includes server.allLanguageIds (languageId (objects s ref))) eqn:Hsup.
  - rewrite (called_supported ref s Hsup). cbn [events].
    apply request_observed.
  - by rewrite (called_unsupported ref s Hsup).
Qed.

Lemma calls_cons d docs s :
  forEach (d :: docs) validateTextDocument s
  = after (events (validateTextDocument d s))
      (forEach docs validateTextDocument (final (validateTextDocument d s))).
Proof.
  cbn [forEach]. unfold bind. pose proof (called_normal d s) as Hn.
  destruct (validateTextDocument d s) as [c s' evs].
  cbn [completion] in Hn. by subst c.
Qed.

(** The calls a change of configuration makes, one per open document. *)
Lemma calls_observed docs s :
  let o := forEach docs validateTextDocument s in
  completion o = Normal tt
  /\ same_session s (final o)
  /\ collectorMap (final o) = collectorMap s
  /\ published (events o) = []
  /\ engine_calls (events o) = []
  /\ (hasConfigurationCapability s = false -> events o = []).
Proof.
  revert s. induction docs as [|d docs IH]; intros s.
  - cbn. split; [done|]. split; [apply same_session_refl|done].
  - cbv zeta. rewrite calls_cons, completion_after, final_after, events_after.
    destruct (called_same_session d s) as [Hs Hcm].
    destruct (called_observed d s) as (Hp & He & Hq).
    destruct (IH (final (validateTextDocument d s)))
      as (Hn & Hs' & Hcm' & Hp' & He' & Hq').
    split; [done|]. split; [by eapply same_session_trans|].
    split; [by rewrite Hcm'|].
    rewrite published_app, engine_calls_app, Hp, Hp', He, He'.
    split; [done|]. split; [done|].
    intros Hpush. rewrite (Hq Hpush), Hq'; [done|].
    destruct Hs as (Hc & _). by rewrite Hc.
Qed.

(** A run that resumes sends no configuration request. *)
Lemma resumed_requests ref settled s :
  configuration_requests (events (validateTextDocument_resumed ref settled s)) = [].
Proof.
  destruct settled as [[settings|]|reason].
  - rewrite resumed_with_settings. cbn [events].
    rewrite !configuration_requests_app, configuration_requests_caught.
    reflexivity.
  - by rewrite resumed_with_null.
  - by rewrite resumed_with_rejection.
Qed.

Lemma resumption_requests runs s :
  configuration_requests (events (resumption runs s)) = [].
Proof.
  revert s. induction runs as [|run runs IH]; intros s; [done|].
  by rewrite resumption_cons, events_after, configuration_requests_app,
    resumed_requests, IH.
Qed.

Lemma resume_requests s : configuration_requests (events (resume s)) = [].
Proof. rewrite resume_outcome. apply resumption_requests. Qed.

(** The handler of a change that carries a settings object, and of any
    change when the settings are requested. *)
Lemma change_outcome change s :
  (hasConfigurationCapability s = true \/ is_Some (settings change)) ->
  onDidChangeConfiguration change s
  = after [console_log (stringify change)]
      (forEach (documents s) validateTextDocument (reset change s)).
Proof.
  intros Hok. unfold onDidChangeConfiguration, reset.
  destruct s as [obj al docs sc cm hc hw hr gs ps ds su].
  destruct hc.
  - cbv beta iota zeta delta
      [bind ret get modify emit after hasConfigurationCapability
       set_documentSettings set_globalSettings set_collectorMap objects
       allocated documents scanner collectorMap hasWorkspaceFolderCapability
       hasDiagnosticRelatedInformationCapability globalSettings promises
       documentSettings suspended].
    match goal with
    | |- context [forEach ?ds ?f ?st] => by destruct (forEach ds f st)
    end.
  - destruct Hok as [Hok|[payload Hok]]; [done|]. rewrite Hok.
    cbv beta iota zeta delta
      [bind ret get modify emit after hasConfigurationCapability
       set_documentSettings set_globalSettings set_collectorMap objects
       allocated documents scanner collectorMap hasWorkspaceFolderCapability
       hasDiagnosticRelatedInformationCapability globalSettings promises
       documentSettings suspended].
    match goal with
    | |- context [forEach ?ds ?f ?st] => by destruct (forEach ds f st)
    end.
Qed.

(** When the answer to its request arrives, the run that waits for it
    resumes with it. *)
Lemma answered_resumes ref p settled s :
  suspended s = [(ref, promised p)] ->
  promises s !! p = Some None ->
  let s' := set_suspended []
              (set_promises (<[p := Some settled]> (promises s)) s) in
  handle (answered p settled) s
  = {| completion := Normal tt;
       final := final (validateTextDocument_resumed ref settled s');
       events := events (validateTextDocument_resumed ref settled s') |}.
Proof.
  intros Hrun Hpending s'. rewrite handle_outcome. cbn [dispatch].
  assert (Hsettle : modify (settle p settled) s
                    = {| completion := Normal tt;
                         final := set_promises
                                    (<[p := Some settled]> (promises s)) s;
                         events := [] |}).
  { unfold modify, settle. by rewrite Hpending. }
  rewrite Hsettle. cbn [events final]. rewrite after_nil, resume_outcome.
  assert (Hsettled : mjoin (<[p := Some settled]> (promises s) !! p) = Some settled).
  { rewrite list_lookup_insert_eq; [done|]. by eapply lookup_lt_Some. }
  subst s'. destruct s as [obj al docs sc cm hc hw hr gs ps ds su].
  cbn [suspended promises] in *. subst su.
  cbn [suspended set_promises set_suspended ready waiting settlement promises
       objects allocated documents scanner collectorMap
       hasConfigurationCapability hasWorkspaceFolderCapability
       hasDiagnosticRelatedInformationCapability globalSettings
       documentSettings].
  rewrite Hsettled. rewrite resumption_cons. cbn [fst snd].
  unfold resumption. cbn [forEach]. unfold ret, after.
  by rewrite app_nil_r.
Qed.
End AsyncFacts.

(** ** A change of configuration without settings *)

(** C7, where the code departs from it: without configuration requests,
    a change of configuration whose settings are [null] stops the
    handler at [change.settings.languageServerExample], right after the
    line that logs the change.  A [TypeError] is thrown before the
    fallback to the default settings is reached, before any collector is
    emptied and before any document is validated again: the state is
    what it was (global settings, collectors, suspended runs) and the
    log line is the only event.  With no run suspended, that is all the
    message does. *)
Theorem null_payload_stops_configuration_change `{ext : Externals}
    (change : async.DidChangeConfigurationParams) (s : async.State) :
  async.hasConfigurationCapability s = false ->
  async.settings change = None ->
  let o := async.onDidChangeConfiguration change s in
  completion o = Throw (TypeError "Cannot read properties of null")
  /\ final o = s
  /\ events o = [console_log (LogText async.null_change)]
  /\ (async.suspended s = [] ->
      final (async.handle (async.didChangeConfiguration change) s) = s
      /\ events (async.handle (async.didChangeConfiguration change) s)
         = [console_log (LogText async.null_change)]).
Proof.
  intros Hpush Hnull o. subst o.
  rewrite (null_payload_outcome change s Hpush Hnull). cbn [completion final events].
  split; [done|]. split; [done|]. split; [done|].
  intros Hidle. rewrite handle_outcome. cbn [async.dispatch].
  rewrite (null_payload_outcome change s Hpush Hnull). cbn [final events].
  by rewrite (resume_idle s Hidle).
Qed.

Section NullPayloadWitness.
#[local] Existing Instance demo.externals.

Lemma null_payload_witness :
  let s := final (async.serve push_session async.initial) in
  let o := async.handle
             (async.didChangeConfiguration {| async.settings := None |}) s in
  async.globalSettings (final o)
  = {| maxNumberOfProblems := 10;
       scanPluginsConf := Some [ {| plugin := "needTryCatch"; options := None |} ] |}
  /\ async.collectorMap (final o) !! "file:///foo.ts"
     = Some [demo.finding "f()" {| plugin := "needTryCatch"; options := None |}]
  /\ async.suspended (final o) = []
  /\ published (events o) = [].
Proof.
  intros s o.
  destruct (null_payload_stops_configuration_change
              {| async.settings := None |} s)
    as (_ & _ & _ & Hloop).
  - vm_compute. reflexivity.
  - reflexivity.
  - destruct Hloop as [Hfinal Hevents]; [vm_compute; reflexivity|].
    subst o. rewrite Hfinal, Hevents. vm_compute. by repeat split.
Defined.
End NullPayloadWitness.

(** ** How a run ends *)

Section AsyncEnds.
Context `{ext : Externals}.
Import async.

(** A run that resumes with a settings object ends by publishing. *)
Lemma resumed_ends_by_publishing ref settings s :
  let o := validateTextDocument_resumed ref (fulfilled (Some settings)) s in
  ends_by_publishing (uri (objects s ref)) o
    (collectorMap (final o) !! uri (objects s ref)).
Proof.
  cbv zeta. rewrite resumed_with_settings. cbn [final].
  set (doc := objects s ref). set (cfg := engineConfig doc settings).
  split; [reflexivity|]. cbn [events].
  exists ([console_log (LogText (uri doc)); console_log (LogPathOf (uri doc));
           console_log (LogVersion (version doc)); scanner_run_call cfg []]
          ++ caught (snd (scanner_run cfg []))).
  exists (Map_forEach (fst (scanner_run cfg []))
            (server.diagnosticOf (hasDiagnosticRelatedInformationCapability s)
               doc) []).
  split; [|split].
  - by rewrite <- !app_assoc.
  - by rewrite !published_app, published_caught.
  - destruct s. cbn [collectorMap set_collectorMap set_scanner].
    rewrite lookup_insert_eq. intros [= ->]. reflexivity.
Qed.

(** A run that resumes without settings ends there. *)
Lemma resumed_without_settings ref settled s :
  (settled = fulfilled None \/ exists reason, settled = rejected reason) ->
  let o := validateTextDocument_resumed ref settled s in
  (exists e, completion o = Throw e)
  /\ events o = []
  /\ scanner (final o) = scanner s.
Proof.
  intros [->|[reason ->]]; cbv zeta.
  - rewrite resumed_with_null. cbn [completion events final].
    split; [by eexists|]. by destruct s.
  - rewrite resumed_with_rejection. split; [by eexists|done].
Qed.
End AsyncEnds.



Section RunEndsWitness.
#[local] Existing Instance demo.externals.

End RunEndsWitness.

(** ** What the engine is handed *)

Section AsyncEngine.
Context `{ext : Externals}.
Import async.

Lemma resumed_engine_calls ref settings s :
  engine_calls
    (events (validateTextDocument_resumed ref (fulfilled (Some settings)) s))
  = [(engineConfig (objects s ref) settings, [])].
Proof.
  rewrite resumed_with_settings. cbn [events].
  by rewrite !engine_calls_app, engine_calls_caught.
Qed.

(** An edit while a run waits for its answer changes the object the run
    holds, and nothing else. *)
Lemma edited_waits ref' v text ref p s :
  suspended s = [(ref, promised p)] ->
  promises s !! p = Some None ->
  handle (edited ref' v text) s
  = {| completion := Normal tt; final := edit ref' v text s; events := [] |}.
Proof.
  intros Hrun Hpending. rewrite handle_outcome. cbn [dispatch].
  unfold modify. cbn [events final]. rewrite after_nil, resume_outcome.
  set (s1 := edit ref' v text s).
  assert (Hsu : suspended s1 = [(ref, promised p)]) by (by destruct s).
  assert (Hwait : settlement s1 (promised p) = None).
  { unfold settlement.
    replace (promises s1) with (promises s) by (by destruct s).
    by rewrite Hpending. }
  rewrite Hsu. cbn [ready waiting]. rewrite Hwait.
  unfold resumption. cbn [forEach]. unfold ret. f_equal.
  rewrite <- Hsu. by destruct s.
Qed.
End AsyncEngine.

Section AsyncHanded.
Context `{ext : Externals}.
Import async.

(** What a run that resumes with a settings object hands to the engine. *)
Lemma resumed_hands ref settings s :
  let o := validateTextDocument_resumed ref (fulfilled (Some settings)) s in
  let cfg := engineConfig (objects s ref) settings in
  engine_calls (events o) = [(cfg, [])]
  /\ config (scanner (final o)) = Some cfg.
Proof.
  cbv zeta. split; [apply resumed_engine_calls|].
  rewrite resumed_with_settings. by destruct s.
Qed.

(** An edit and then the answer: the run resumes on the edited object. *)
Lemma edited_then_answered ref p settings v text s :
  suspended s = [(ref, promised p)] ->
  promises s !! p = Some None ->
  let s' := set_suspended []
              (set_promises (<[p := Some (fulfilled (Some settings))]> (promises s))
                 (edit ref v text s)) in
  let resumed := validateTextDocument_resumed ref (fulfilled (Some settings)) s' in
  serve [edited ref v text; answered p (fulfilled (Some settings))] s
  = {| completion := Normal tt; final := final resumed; events := events resumed |}
  /\ objects s' ref
     = {| uri := uri (objects s ref); languageId := languageId (objects s ref);
          version := v; getText := text |}.
Proof.
  intros Hrun Hpending s' resumed. split.
  - unfold serve. cbn [forEach].
    rewrite (bind_after _ _ _ _ _ _ (edited_waits ref v text ref p s Hrun Hpending)).
    rewrite after_nil.
    assert (Hrun' : suspended (edit ref v text s) = [(ref, promised p)])
      by (by destruct s).
    assert (Hpending' : promises (edit ref v text s) !! p = Some None)
      by (by destruct s).
    rewrite (bind_after _ _ _ _ _ _
               (answered_resumes ref p (fulfilled (Some settings))
                  (edit ref v text s) Hrun' Hpending')).
    unfold ret, after. subst resumed s'.
    replace (promises (edit ref v text s)) with (promises s) by (by destruct s).
    by rewrite app_nil_r.
  - subst s'. destruct s. cbn. by rewrite Nat.eqb_refl.
Qed.
End AsyncHanded.


Section LiveDocumentWitness.
#[local] Existing Instance demo.externals.

End LiveDocumentWitness.

(** ** Pushed settings *)

(** Without configuration requests, once a change of configuration
    is handled every resource gets from [getDocumentSettings], at once
    and without a state change or a request: the [languageServerExample]
    section of the change when it has one, the compiled-in default when
    the change carries a settings object without that section, and the
    global settings of before when the settings of the change are
    [null].  Handling the change sends no configuration request. *)
Theorem pushed_payload_decides_settings `{ext : Externals}
    (change : async.DidChangeConfigurationParams) (s : async.State)
    (resource : string) :
  async.hasConfigurationCapability s = false ->
  let o := async.handle (async.didChangeConfiguration change) s in
  let now :=
    match async.settings change with
    | Some payload =>
        match languageServerExample payload with
        | Some given => given
        | None => server.defaultSettings
        end
    | None => async.globalSettings s
    end in
  async.getDocumentSettings resource (final o)
  = {| completion := Normal (async.resolved now);
       final := final o;
       events := [] |}
  /\ configuration_requests (events o) = [].
Proof.
  intros Hpush o now.
  assert (Hafter : async.hasConfigurationCapability (final o) = false
                   /\ async.globalSettings (final o) = now
                   /\ configuration_requests (events o) = []).
  { subst o. rewrite handle_outcome, final_after, events_after,
      configuration_requests_app, resume_requests, app_nil_r.
    cbn [async.dispatch].
    destruct (async.settings change) as [payload|] eqn:Hpayload.
    - rewrite change_outcome by (right; by rewrite Hpayload).
      rewrite final_after, events_after.
      set (s0 := async.reset change s).
      assert (Hc0 : async.hasConfigurationCapability s0 = false).
      { subst s0. unfold async.reset. rewrite Hpush, Hpayload. by destruct s. }
      assert (Hg0 : async.globalSettings s0 = now).
      { subst s0. unfold async.reset. rewrite Hpush, Hpayload. by destruct s. }
      destruct (calls_observed (async.documents s) s0)
        as (_ & (Hc & _ & _ & Hg & _) & _ & _ & _ & Hquiet).
      destruct (resume_same_session
                  (final (forEach (async.documents s)
                            async.validateTextDocument s0)))
        as (_ & (Hc' & _ & _ & Hg' & _) & _).
      rewrite Hc', Hc, Hg', Hg, (Hquiet Hc0).
      unfold async.stringify. rewrite Hpayload. by repeat split.
    - rewrite (null_payload_outcome change s Hpush Hpayload).
      cbn [final events].
      destruct (resume_same_session s) as (_ & (Hc & _ & _ & Hg & _) & _).
      rewrite Hc, Hg. by repeat split. }
  destruct Hafter as (Hc & Hg & Hquiet). split; [|exact Hquiet].
  rewrite async_getDocumentSettings_outcome.
  unfold awaitedFor, requested, request. by rewrite Hc, Hg.
Qed.

Section PushedPayloadWitness.
#[local] Existing Instance demo.externals.

Lemma pushed_payload_witness :
  let pushed := {| maxNumberOfProblems := 10; scanPluginsConf := Some [] |} in
  let change :=
    {| async.settings := Some {| languageServerExample := Some pushed |} |} in
  let after_push :=
    final (async.handle (async.didChangeConfiguration change) async.initial) in
  let after_null :=
    final (async.handle
             (async.didChangeConfiguration {| async.settings := None |})
             after_push) in
  completion (async.getDocumentSettings "file:///any.ts" after_push)
  = Normal (async.resolved pushed)
  /\ completion (async.getDocumentSettings "file:///any.ts" after_null)
     = Normal (async.resolved pushed).
Proof.
  intros pushed change after_push after_null. split.
  - destruct (pushed_payload_decides_settings change async.initial
                "file:///any.ts") as [Hget _]; [reflexivity|].
    subst after_push. by rewrite Hget.
  - destruct (pushed_payload_decides_settings {| async.settings := None |}
                after_push "file:///any.ts") as [Hget _];
      [vm_compute; reflexivity|].
    subst after_null. rewrite Hget. vm_compute. reflexivity.
Defined.
End PushedPayloadWitness.

(** ** A change of configuration that can be read *)

Section AsyncChange.
Context `{ext : Externals}.
Import async.

Lemma calls_suspended docs s :
  map fst (suspended (final (forEach docs validateTextDocument s)))
  = map fst (suspended s)
    ++ List.filter (fun ref => supported (objects s ref)) docs.
Proof.
  revert s. induction docs as [|d docs IH]; intros s.
  - cbn. by rewrite app_nil_r.
  - rewrite calls_cons, final_after, IH.
    destruct (called_same_session d s) as [(_ & _ & _ & _ & Hobj & _) _].
    rewrite Hobj. cbn [List.filter]. unfold supported at 2.
    destruct (includes server.allLanguageIds (languageId (objects s d))) eqn:Hsup.
    + rewrite (called_supported d s Hsup). cbn [final].
      replace (suspended (set_suspended _ _))
        with (suspended s ++ [(d, awaitedFor s (uri (objects s d)))])
        by (by destruct (requested s (uri (objects s d)))).
      rewrite map_app, <- app_assoc. reflexivity.
    + by rewrite (called_unsupported d s Hsup).
Qed.

Lemma calls_suspended_push docs s :
  hasConfigurationCapability s = false ->
  suspended (final (forEach docs validateTextDocument s))
  = suspended s
    ++ map (fun ref => (ref, resolved (globalSettings s)))
         (List.filter (fun ref => supported (objects s ref)) docs).
Proof.
  revert s. induction docs as [|d docs IH]; intros s Hpush.
  - cbn. by rewrite app_nil_r.
  - rewrite calls_cons, final_after.
    destruct (called_same_session d s) as [(Hc & _ & _ & Hg & Hobj & _) _].
    rewrite IH by (by rewrite Hc). rewrite Hobj, Hg.
    cbn [List.filter]. unfold supported at 2.
    destruct (includes server.allLanguageIds (languageId (objects s d))) eqn:Hsup.
    + rewrite (called_supported d s Hsup). cbn [final].
      unfold awaitedFor, requested. rewrite Hpush.
      replace (suspended (set_suspended _ s))
        with (suspended s ++ [(d, resolved (globalSettings s))])
        by (by destruct s).
      cbn [map]. by rewrite <- app_assoc.
    + by rewrite (called_unsupported d s Hsup).
Qed.

Lemma calls_asked_anew docs s seen :
  asked_anew s seen ->
  asked_anew (final (forEach docs validateTextDocument s))
    (seen ++ events (forEach docs validateTextDocument s)).
Proof.
  revert s seen. induction docs as [|d docs IH]; intros s seen Hfresh.
  - cbn. by rewrite app_nil_r.
  - rewrite calls_cons, final_after, events_after, app_assoc.
    apply IH. clear IH. intros u p.
    destruct (includes server.allLanguageIds (languageId (objects s d))) eqn:Hsup.
    + rewrite (called_supported d s Hsup). cbn [final events].
      rewrite configuration_requests_app. unfold requested, request.
      destruct s as [obj al ds0 sc cm hc hw hr gs ps ds su].
      cbn [hasConfigurationCapability documentSettings objects promises
           set_suspended set_documentSettings set_promises].
      destruct hc.
      * destruct (ds !! uri (obj d)) as [hit|] eqn:Hhit.
        -- cbn [documentSettings set_suspended]. intros Hu.
           apply elem_of_app. left. by apply (Hfresh u p).
        -- cbn [documentSettings set_suspended set_documentSettings set_promises].
           destruct (decide (uri (obj d) = u)) as [<-|Hne].
           ++ intros _. apply elem_of_app. right. cbn. left.
           ++ rewrite lookup_insert_ne by done. intros Hu.
              apply elem_of_app. left. by apply (Hfresh u p).
      * cbn [documentSettings set_suspended]. intros Hu.
        apply elem_of_app. left. by apply (Hfresh u p).
    + rewrite (called_unsupported d s Hsup). cbn [final events].
      rewrite app_nil_r. apply Hfresh.
Qed.

(** Runs that hold their settings all resume. *)
Lemma ready_resolved s gs refs :
  ready s (map (fun ref => (ref, resolved gs)) refs)
  = map (fun ref => (ref, fulfilled (Some gs))) refs
  /\ waiting s (map (fun ref => (ref, resolved gs)) refs) = [].
Proof.
  induction refs as [|ref refs [IHr IHw]]; [done|].
  cbn [map ready waiting settlement]. by rewrite IHr, IHw.
Qed.

(** Each of them publishes for its document. *)
Lemma resumption_published gs refs s :
  map fst (published
             (events (resumption
                        (map (fun ref => (ref, fulfilled (Some gs))) refs) s)))
  = map (fun ref => uri (objects s ref)) refs.
Proof.
  revert s. induction refs as [|ref refs IH]; intros s; [done|].
  cbn [map]. rewrite resumption_cons, events_after, published_app, map_app.
  cbn [fst snd]. rewrite IH.
  destruct (resumed_same_session ref (fulfilled (Some gs)) s)
    as ((_ & _ & _ & _ & Hobj & _) & _).
  rewrite Hobj. f_equal.
  rewrite resumed_with_settings. cbn [events].
  by rewrite !published_app, published_caught.
Qed.
End AsyncChange.


Section ChangeWitness.
#[local] Existing Instance demo.externals.

End ChangeWitness.
